(** * A command-line video player: playback, playlists, search and flagging

    A shallow embedding of [src/video_player.py] and [src/video_playlist.py].

    Every command of the player prints lines and may change the player.  A
    command is therefore a function from the player to the printed lines and
    the player afterwards.  Python dictionaries keep insertion order, which the
    displays rely on, so they are association lists here.  [Video] objects are
    shared between the library, the playlists and the playback field and one
    of their fields is assigned in place; they live in a store and everything
    else holds references into it. *)

From Stdlib Require Import ZArith String Ascii DecimalString.
From stdpp Require Import base list strings.

(** ** Python strings *)

Module PyStr.

(** [str.lower] on one character; characters are bytes here and only the
    ASCII capitals have a lower-case form. *)
Definition lower_char (c : ascii) : ascii :=
  let n := nat_of_ascii c in
  if (65 <=? n) && (n <=? 90) then ascii_of_nat (n + 32) else c.

Fixpoint lower (s : string) : string :=
  match s with
  | EmptyString => EmptyString
  | String c s' => String (lower_char c) (lower s')
  end.

(** [sub in s] *)
Fixpoint contains (sub s : string) : bool :=
  String.prefix sub s ||
  match s with
  | EmptyString => false
  | String _ s' => contains sub s'
  end.

(** [sep.join(l)] *)
Definition join (sep : string) (l : list string) : string :=
  String.concat sep l.

(** [str(n)] for a natural number *)
Definition of_nat (n : nat) : string :=
  NilEmpty.string_of_uint (Nat.to_uint n).

Definition is_digit (c : ascii) : bool :=
  let n := nat_of_ascii c in (48 <=? n) && (n <=? 57).

Fixpoint digits_value (acc : nat) (s : string) : option nat :=
  match s with
  | EmptyString => Some acc
  | String c s' =>
      if is_digit c
      then digits_value (10 * acc + (nat_of_ascii c - 48)) s'
      else None
  end.

(** [int(s)] on a string of decimal digits, the integers that a selection
    can be; [None] stands for the [ValueError] of a string that is none. *)
Definition to_nat (s : string) : option nat :=
  match s with
  | EmptyString => None
  | _ => digits_value 0 s
  end.

Definition newline : string := String "010"%char EmptyString.

End PyStr.

(** ** Python dictionaries with string keys *)

Module PyDict.

Definition dict (V : Type) : Type := list (string * V).

Section ops.
Context {V : Type}.

(** [d.get(k)] *)
Fixpoint get (k : string) (d : dict V) : option V :=
  match d with
  | [] => None
  | (k', v) :: d' => if String.eqb k k' then Some v else get k d'
  end.

(** [k in d] *)
Definition mem (k : string) (d : dict V) : bool :=
  match get k d with Some _ => true | None => false end.

(** [d[k] = v]: a present key keeps its place, a new one goes last. *)
Fixpoint set (k : string) (v : V) (d : dict V) : dict V :=
  match d with
  | [] => [(k, v)]
  | (k', v') :: d' =>
      if String.eqb k k' then (k', v) :: d' else (k', v') :: set k v d'
  end.

(** [d.pop(k)] on a present key; the [KeyError] of an absent one is not
    modelled since every caller tests membership first. *)
Fixpoint pop (k : string) (d : dict V) : dict V :=
  match d with
  | [] => []
  | (k', v') :: d' =>
      if String.eqb k k' then d' else (k', v') :: pop k d'
  end.

(** [d.values()] and [d.items()], in insertion order. *)
Definition values (d : dict V) : list V := d.*2.
Definition items (d : dict V) : list (string * V) := d.

End ops.

End PyDict.

Import PyDict.

(** [sorted(l, key = ...)] with string keys: a stable insertion sort. *)
Section sorted.
Context {A : Type} (key : A → string).

Fixpoint sorted_insert (x : A) (l : list A) : list A :=
  match l with
  | [] => [x]
  | y :: l' =>
      if String.leb (key x) (key y) then x :: y :: l'
      else y :: sorted_insert x l'
  end.

Definition sorted (l : list A) : list A := foldr sorted_insert [] l.

Fixpoint is_sorted (l : list A) : bool :=
  match l with
  | [] => true
  | x :: l' =>
      match l' with
      | [] => true
      | y :: _ => String.leb (key x) (key y) && is_sorted l'
      end
  end.
End sorted.

(** ** Videos and the video library *)

Module Video.

(** Modelled from the spec: the [Video] class ([video.py] is not among the
    sources).  A video has an id, a title, a sequence of tags and a flag
    reason, the empty string meaning "not flagged".  Only the flag reason is
    ever assigned. *)
Record t := mk {
  title : string;
  video_id : string;
  tags : list string;
  flag_reason : string
}.

Definition set_flag_reason (reason : string) (v : t) : t :=
  mk (title v) (video_id v) (tags v) reason.

Global Instance inhabited : Inhabited t := populate (mk "" "" [] "").

End Video.

(** A reference to a [Video] object: its position in the library. *)
Abbreviation vref := nat (only parsing).

(** Modelled from the spec: the [VideoLibrary] class ([video_library.py] is
    not among the sources).  The catalog holds the video objects, enumerates
    them and finds one by id or reports that there is none.  The list is the
    store of the objects, in catalog order. *)
Abbreviation VideoLibrary := (list Video.t) (only parsing).

(** Modelled from the spec: [VideoLibrary.get_all_videos], the enumeration
    of the catalog: a reference to each video, in catalog order. *)
Definition get_all_videos (lib : VideoLibrary) : list vref :=
  seq 0 (length lib).

(** Modelled from the spec: [VideoLibrary.get_video], the lookup by id: the
    video of that id, or [None] when the catalog has none. *)
Definition get_video (lib : VideoLibrary) (video_id : string) : option vref :=
  fst <$> list_find (λ v, Video.video_id v = video_id) lib.

(** ** Playlists ([video_playlist.py]) *)

Module Playlist.

Record t := mk {
  _title : string;
  _videos : dict vref
}.

Definition __init__ (playlist_title : string) : t := mk playlist_title [].

Definition title (self : t) : string := _title self.

Definition videos (self : t) : dict vref := _videos self.

(** [self._videos[video.video_id] = video] *)
Definition add_video (lib : VideoLibrary) (video : vref) (self : t) : t :=
  mk (_title self) (set (Video.video_id (lib !!! video)) video (_videos self)).

(** [self._videos.pop(video.video_id)] *)
Definition remove_video (lib : VideoLibrary) (video : vref) (self : t) : t :=
  mk (_title self) (pop (Video.video_id (lib !!! video)) (_videos self)).

Definition reset_playlist (self : t) : t := mk (_title self) [].

Definition get_all_videos (self : t) : dict vref := _videos self.

End Playlist.

(** ** The video player ([video_player.py]) *)

(** The two values the code gives [_current_video_status]. *)
Definition PLAYING : Z := 1%Z.
Definition PAUSED : Z := 0%Z.

Record VideoPlayer := mkVideoPlayer {
  _video_library : VideoLibrary;
  _currently_playing_video : option vref;
  _current_video_status : option Z;
  _all_playlists : dict Playlist.t
}.

(** Lines printed by a command. *)
Definition output := list string.

Definition command_result : Type := output * VideoPlayer.

Definition __init__ (library : VideoLibrary) : VideoPlayer :=
  mkVideoPlayer library None None [].

(** Assignments to the fields of [self]. *)
Definition set_playback (video : option vref) (status : option Z)
    (self : VideoPlayer) : VideoPlayer :=
  mkVideoPlayer (_video_library self) video status (_all_playlists self).

Definition set_status (status : option Z) (self : VideoPlayer) : VideoPlayer :=
  mkVideoPlayer (_video_library self) (_currently_playing_video self) status
    (_all_playlists self).

Definition set_library (library : VideoLibrary) (self : VideoPlayer)
    : VideoPlayer :=
  mkVideoPlayer library (_currently_playing_video self)
    (_current_video_status self) (_all_playlists self).

Definition set_playlists (playlists : dict Playlist.t) (self : VideoPlayer)
    : VideoPlayer :=
  mkVideoPlayer (_video_library self) (_currently_playing_video self)
    (_current_video_status self) playlists.

(** The object a reference of the player points to. *)
Definition video_of (self : VideoPlayer) (video : vref) : Video.t :=
  _video_library self !!! video.

(** The playback state: the video that is playing and its status. *)
Definition PlaybackState (self : VideoPlayer) : option vref * option Z :=
  (_currently_playing_video self, _current_video_status self).

Definition is_flagged (v : Video.t) : bool :=
  negb (String.eqb (Video.flag_reason v) "").

Definition formatted_video_info (video : Video.t) : string :=
  Video.title video +:+ " (" +:+ Video.video_id video +:+ ") [" +:+
  PyStr.join " " (Video.tags video) +:+ "]".

Definition video_flag_status (video : Video.t) : string :=
  if is_flagged video
  then " - FLAGGED (reason: " +:+ Video.flag_reason video +:+ ")"
  else "".

Definition number_of_videos (self : VideoPlayer) : command_result :=
  let num_videos := length (get_all_videos (_video_library self)) in
  ([PyStr.of_nat num_videos +:+ " videos in the library"], self).

Definition show_all_videos (self : VideoPlayer) : command_result :=
  let all_videos := video_of self <$> get_all_videos (_video_library self) in
  let all_videos := sorted Video.title all_videos in
  ("Here's a list of all available videos:" ::
   ((λ video, formatted_video_info video +:+ video_flag_status video)
      <$> all_videos),
   self).

Definition play_video (video_id : string) (self : VideoPlayer)
    : command_result :=
  match get_video (_video_library self) video_id with
  | None => (["Cannot play video: Video does not exist"], self)
  | Some video_to_play =>
      if is_flagged (video_of self video_to_play) then
        (["Cannot play video: Video is currently flagged (reason: " +:+
          Video.flag_reason (video_of self video_to_play) +:+ ")"], self)
      else
        let stopping :=
          match _currently_playing_video self with
          | Some current =>
              ["Stopping video: " +:+ Video.title (video_of self current)]
          | None => []
          end in
        (stopping ++
         ["Playing video: " +:+ Video.title (video_of self video_to_play)],
         set_playback (Some video_to_play) (Some PLAYING) self)
  end.

Definition stop_video (self : VideoPlayer) : command_result :=
  match _currently_playing_video self with
  | None => (["Cannot stop video: No video is currently playing"], self)
  | Some current =>
      (["Stopping video: " +:+ Video.title (video_of self current)],
       set_playback None None self)
  end.

(** [random.choice] draws a position of the list it is given; the draw is the
    argument [choice], reduced to the length of the list. *)
Definition play_random_video (choice : nat) (self : VideoPlayer)
    : command_result :=
  let all_videos := get_all_videos (_video_library self) in
  let non_flagged_videos :=
    List.filter (λ video, negb (is_flagged (video_of self video)))
      all_videos in
  if length non_flagged_videos =? 0 then (["No videos available"], self)
  else
    let random_video :=
      non_flagged_videos !!! (choice mod length non_flagged_videos) in
    let random_video_id := Video.video_id (video_of self random_video) in
    play_video random_video_id self.

Definition pause_video (self : VideoPlayer) : command_result :=
  match _currently_playing_video self with
  | None => (["Cannot pause video: No video is currently playing"], self)
  | Some current =>
      if bool_decide (_current_video_status self = Some PAUSED) then
        (["Video already paused: " +:+ Video.title (video_of self current)],
         self)
      else
        (["Pausing video: " +:+ Video.title (video_of self current)],
         set_status (Some PAUSED) self)
  end.

Definition continue_video (self : VideoPlayer) : command_result :=
  match _currently_playing_video self with
  | None => (["Cannot continue video: No video is currently playing"], self)
  | Some current =>
      if bool_decide (_current_video_status self = Some PLAYING) then
        (["Cannot continue video: Video is not paused"], self)
      else
        (["Continuing video: " +:+ Video.title (video_of self current)],
         set_status (Some PLAYING) self)
  end.

Definition show_playing (self : VideoPlayer) : command_result :=
  match _currently_playing_video self with
  | None => (["No video is currently playing"], self)
  | Some current =>
      let current_video_info := formatted_video_info (video_of self current) in
      let current_video_info :=
        if bool_decide (_current_video_status self = Some PAUSED)
        then current_video_info +:+ " - PAUSED"
        else current_video_info in
      (["Currently playing: " +:+ current_video_info], self)
  end.

Definition create_playlist (playlist_name : string) (self : VideoPlayer)
    : command_result :=
  let lower_case_playlist_name := PyStr.lower playlist_name in
  if mem lower_case_playlist_name (_all_playlists self) then
    (["Cannot create playlist: A playlist with the same name already exists."],
     self)
  else
    let new_playlist := Playlist.__init__ playlist_name in
    (["Successfully created new playlist: " +:+ playlist_name],
     set_playlists
       (set lower_case_playlist_name new_playlist (_all_playlists self)) self).

Definition add_to_playlist (playlist_name video_id : string)
    (self : VideoPlayer) : command_result :=
  let lower_case_playlist_name := PyStr.lower playlist_name in
  match get lower_case_playlist_name (_all_playlists self) with
  | None =>
      (["Cannot add video to " +:+ playlist_name +:+
        ": Playlist does not exist"], self)
  | Some playlist =>
      match get_video (_video_library self) video_id with
      | None =>
          (["Cannot add video to " +:+ playlist_name +:+
            ": Video does not exist"], self)
      | Some video_to_add =>
          if is_flagged (video_of self video_to_add) then
            (["Cannot add video to " +:+ playlist_name +:+
              ": Video is currently flagged (reason: " +:+
              Video.flag_reason (video_of self video_to_add) +:+ ")"], self)
          else
            let playlist_videos := Playlist.videos playlist in
            if mem video_id playlist_videos then
              (["Cannot add video to " +:+ playlist_name +:+
                ": Video already added"], self)
            else
              (["Added video to " +:+ playlist_name +:+ ": " +:+
                Video.title (video_of self video_to_add)],
               set_playlists
                 (set lower_case_playlist_name
                    (Playlist.add_video (_video_library self) video_to_add
                       playlist)
                    (_all_playlists self)) self)
      end
  end.

Definition show_all_playlists (self : VideoPlayer) : command_result :=
  match _all_playlists self with
  | [] => (["No playlists exist yet"], self)
  | _ =>
      ("Showing all playlists:" ::
       ((λ playlist, "  " +:+ Playlist.title playlist)
          <$> sorted Playlist.title (values (_all_playlists self))),
       self)
  end.

Definition show_playlist (playlist_name : string) (self : VideoPlayer)
    : command_result :=
  let lower_case_playlist_name := PyStr.lower playlist_name in
  match get lower_case_playlist_name (_all_playlists self) with
  | None =>
      (["Cannot show playlist " +:+ playlist_name +:+
        ": Playlist does not exist"], self)
  | Some required_playlist =>
      let heading := "Showing playlist: " +:+ playlist_name in
      match Playlist.videos required_playlist with
      | [] => ([heading; "  No videos here yet"], self)
      | _ =>
          (heading ::
           ((λ '(video_id, video),
               formatted_video_info (video_of self video) +:+
               video_flag_status (video_of self video))
              <$> items (Playlist.videos required_playlist)),
           self)
      end
  end.

Definition remove_from_playlist (playlist_name video_id : string)
    (self : VideoPlayer) : command_result :=
  let lower_case_playlist_name := PyStr.lower playlist_name in
  match get lower_case_playlist_name (_all_playlists self) with
  | None =>
      (["Cannot remove video from " +:+ playlist_name +:+
        ": Playlist does not exist"], self)
  | Some playlist =>
      match get_video (_video_library self) video_id with
      | None =>
          (["Cannot remove video from " +:+ playlist_name +:+
            ": Video does not exist"], self)
      | Some video_to_add =>
          let playlist_videos := Playlist.videos playlist in
          if negb (mem video_id playlist_videos) then
            (["Cannot remove video from " +:+ playlist_name +:+
              ": Video is not in playlist"], self)
          else
            (["Removed video from " +:+ playlist_name +:+ ": " +:+
              Video.title (video_of self video_to_add)],
             set_playlists
               (set lower_case_playlist_name
                  (Playlist.remove_video (_video_library self) video_to_add
                     playlist)
                  (_all_playlists self)) self)
      end
  end.

Definition clear_playlist (playlist_name : string) (self : VideoPlayer)
    : command_result :=
  let lower_case_playlist_name := PyStr.lower playlist_name in
  match get lower_case_playlist_name (_all_playlists self) with
  | None =>
      (["Cannot clear playlist " +:+ playlist_name +:+
        ": Playlist does not exist"], self)
  | Some playlist =>
      (["Successfully removed all videos from " +:+ playlist_name],
       set_playlists
         (set lower_case_playlist_name (Playlist.reset_playlist playlist)
            (_all_playlists self)) self)
  end.

Definition delete_playlist (playlist_name : string) (self : VideoPlayer)
    : command_result :=
  let lower_case_playlist_name := PyStr.lower playlist_name in
  if negb (mem lower_case_playlist_name (_all_playlists self)) then
    (["Cannot delete playlist " +:+ playlist_name +:+
      ": Playlist does not exist"], self)
  else
    (["Deleted playlist: " +:+ playlist_name],
     set_playlists (pop lower_case_playlist_name (_all_playlists self)) self).

(** Modelled from the spec: [CommandParser.process_command] with a result
    list ([command_parser.py] is not among the sources).  The line read after
    a search is an optional selection: a positive integer within [1, N]
    selects the video of that number, which is then played as by
    [play_video]; any other number selects nothing, with no output; a line
    that is no number is an input-parsing error.  [None] stands for the
    raised error. *)
Definition process_command (command : string) (matching_videos : list vref)
    (self : VideoPlayer) : option command_result :=
  match PyStr.to_nat command with
  | None => None
  | Some number =>
      if (1 <=? number) && (number <=? length matching_videos) then
        let video := matching_videos !!! (number - 1) in
        Some (play_video (Video.video_id (video_of self video)) self)
      else Some ([], self)
  end.

Definition selection_prompt : string :=
  "Would you like to play any of the above? If yes, specify the number of the video." +:+
  PyStr.newline +:+
  " If your answer is not a valid number, we will assume it's a no.".

(** [for number, video in enumerate(videos): print(...)] *)
Definition numbered_lines (self : VideoPlayer) (videos : list vref) : output :=
  imap (λ number video,
          PyStr.of_nat (number + 1) +:+ ") " +:+
          formatted_video_info (video_of self video)) videos.

(** The loop of [search_videos] that collects [matching_videos]. *)
Definition matching_title (search_term : string) (self : VideoPlayer)
    : list vref :=
  List.filter
    (λ video,
       negb (is_flagged (video_of self video)) &&
       PyStr.contains (PyStr.lower search_term)
         (PyStr.lower (Video.title (video_of self video))))
    (get_all_videos (_video_library self)).

(** The loop of [search_videos_tag] that collects [matching_videos]. *)
Definition matching_tag (video_tag : string) (self : VideoPlayer)
    : list vref :=
  List.filter
    (λ video,
       negb (is_flagged (video_of self video)) &&
       existsb (λ tag, String.eqb (PyStr.lower video_tag) (PyStr.lower tag))
         (Video.tags (video_of self video)))
    (get_all_videos (_video_library self)).

(** The lines a search prints before it reads the selection. *)
Definition search_listing (query : string) (self : VideoPlayer)
    (matching_videos : list vref) : output :=
  ("Here are the results for " +:+ query +:+ ":") ::
  numbered_lines self matching_videos ++ [selection_prompt].

(** The line read by [input()] is the argument [command].  The sorted copy
    goes to [maching_videos], a name that nothing reads afterwards.  An error
    raised by [process_command] is caught and ends the search. *)
Definition search_videos (search_term : string) (command : string)
    (self : VideoPlayer) : command_result :=
  let matching_videos := matching_title search_term self in
  if length matching_videos =? 0 then
    (["No search results for " +:+ search_term], self)
  else
    let maching_videos :=
      sorted (λ video, Video.title (video_of self video)) matching_videos in
    let shown := search_listing search_term self matching_videos in
    match process_command command matching_videos self with
    | Some (played, self') => (shown ++ played, self')
    | None => (shown, self)
    end.

Definition search_videos_tag (video_tag : string) (command : string)
    (self : VideoPlayer) : command_result :=
  let matching_videos := matching_tag video_tag self in
  if length matching_videos =? 0 then
    (["No search results for " +:+ video_tag], self)
  else
    let maching_videos :=
      sorted (λ video, Video.title (video_of self video)) matching_videos in
    let shown := search_listing video_tag self matching_videos in
    match process_command command matching_videos self with
    | Some (played, self') => (shown ++ played, self')
    | None => (shown, self)
    end.

(** [flag_reason] is [None] when the caller leaves the argument out. *)
Definition flag_video (video_id : string) (flag_reason : option string)
    (self : VideoPlayer) : command_result :=
  let flag_reason := default "" flag_reason in
  match get_video (_video_library self) video_id with
  | None => (["Cannot flag video: Video does not exist"], self)
  | Some video_to_flag =>
      if is_flagged (video_of self video_to_flag) then
        (["Cannot flag video: Video is already flagged"], self)
      else
        let '(stopped, self1) :=
          match _currently_playing_video self with
          | Some current =>
              if String.eqb video_id (Video.video_id (video_of self current))
              then stop_video self
              else ([], self)
          | None => ([], self)
          end in
        let reason :=
          if negb (String.eqb flag_reason "") then flag_reason
          else "Not supplied" in
        let self2 :=
          set_library
            (<[video_to_flag :=
                 Video.set_flag_reason reason (video_of self1 video_to_flag)]>
               (_video_library self1)) self1 in
        (stopped ++
         ["Successfully flagged video: " +:+
          Video.title (video_of self2 video_to_flag) +:+ " (reason: " +:+
          Video.flag_reason (video_of self2 video_to_flag) +:+ ")"],
         self2)
  end.

Definition allow_video (video_id : string) (self : VideoPlayer)
    : command_result :=
  match get_video (_video_library self) video_id with
  | None => (["Cannot remove flag from video: Video does not exist"], self)
  | Some video_to_unflag =>
      if negb (is_flagged (video_of self video_to_unflag)) then
        (["Cannot remove flag from video: Video is not flagged"], self)
      else
        let self1 :=
          set_library
            (<[video_to_unflag :=
                 Video.set_flag_reason "" (video_of self video_to_unflag)]>
               (_video_library self)) self in
        (["Successfully removed flag from video: " +:+
          Video.title (video_of self1 video_to_unflag)], self1)
  end.

(** The commands of the player that [video_player.py] implements on its own,
    and their execution. *)
Inductive command :=
  | NumberOfVideos
  | ShowAllVideos
  | Play (video_id : string)
  | Stop
  | PlayRandom (choice : nat)
  | Pause
  | Continue
  | ShowPlaying
  | CreatePlaylist (playlist_name : string)
  | AddToPlaylist (playlist_name video_id : string)
  | ShowAllPlaylists
  | ShowPlaylist (playlist_name : string)
  | RemoveFromPlaylist (playlist_name video_id : string)
  | ClearPlaylist (playlist_name : string)
  | DeletePlaylist (playlist_name : string)
  | FlagVideo (video_id : string) (flag_reason : option string)
  | AllowVideo (video_id : string).

Definition execute (c : command) : VideoPlayer → command_result :=
  match c with
  | NumberOfVideos => number_of_videos
  | ShowAllVideos => show_all_videos
  | Play video_id => play_video video_id
  | Stop => stop_video
  | PlayRandom choice => play_random_video choice
  | Pause => pause_video
  | Continue => continue_video
  | ShowPlaying => show_playing
  | CreatePlaylist playlist_name => create_playlist playlist_name
  | AddToPlaylist playlist_name video_id =>
      add_to_playlist playlist_name video_id
  | ShowAllPlaylists => show_all_playlists
  | ShowPlaylist playlist_name => show_playlist playlist_name
  | RemoveFromPlaylist playlist_name video_id =>
      remove_from_playlist playlist_name video_id
  | ClearPlaylist playlist_name => clear_playlist playlist_name
  | DeletePlaylist playlist_name => delete_playlist playlist_name
  | FlagVideo video_id flag_reason => flag_video video_id flag_reason
  | AllowVideo video_id => allow_video video_id
  end.

(** Running commands one after the other: all the lines, and the player at
    the end. *)
Fixpoint run (cs : list command) (self : VideoPlayer) : command_result :=
  match cs with
  | [] => ([], self)
  | c :: cs' =>
      let '(out, self1) := execute c self in
      let '(out', self2) := run cs' self1 in
      (out ++ out', self2)
  end.

(** Some videos for the examples. *)
Definition funny_dogs : Video.t :=
  Video.mk "Funny Dogs" "funny_dogs_video_id" ["#dog"; "#animal"] "".
Definition amazing_cats : Video.t :=
  Video.mk "Amazing Cats" "amazing_cats_video_id" ["#cat"; "#animal"] "".
Definition another_cat : Video.t :=
  Video.mk "Another Cat Video" "another_cat_video_id" ["#cat"; "#animal"] "".
Definition example_library : VideoLibrary :=
  [funny_dogs; amazing_cats; another_cat].

(** ** Notions used by the properties *)

(** The reason that [flag_video] records. *)
Definition recorded_reason (flag_reason : option string) : string :=
  match flag_reason with
  | Some reason => if String.eqb reason "" then "Not supplied" else reason
  | None => "Not supplied"
  end.

(** The status is set exactly when a playing video is set, and a status that
    is set is PLAYING or PAUSED. *)
Definition playback_invariant (self : VideoPlayer) : Prop :=
  (_currently_playing_video self = None ↔ _current_video_status self = None) ∧
  (_current_video_status self = None ∨
   _current_video_status self = Some PLAYING ∨
   _current_video_status self = Some PAUSED).

(** Every reference the player holds points into the library: the playing
    video does, and each member of a playlist does and is filed under the id
    of the video it points to. *)
Definition references_valid (self : VideoPlayer) : Prop :=
  (∀ current,
     _currently_playing_video self = Some current →
     current < length (_video_library self)) ∧
  (∀ name playlist video_id video,
     (name, playlist) ∈ _all_playlists self →
     (video_id, video) ∈ Playlist.videos playlist →
     Video.video_id <$> _video_library self !! video = Some video_id).

(** A text is displayed when some printed line contains it. *)
Definition displays (out : output) (text : string) : Prop :=
  ∃ line, line ∈ out ∧ PyStr.contains text line = true.

(** The two outcomes of the selection step of a search that listed
    [matching_videos]: a line that is no integer within [1, N] leaves the
    player as it was and prints nothing after the listing; a line that is
    such an integer plays the video listed under that number. *)
Definition selection_outcome (query command : string) (self : VideoPlayer)
    (matching_videos : list vref) (result : command_result) : Prop :=
  ((∀ number, PyStr.to_nat command = Some number →
              ¬ (1 ≤ number ≤ length matching_videos)) →
   result = (search_listing query self matching_videos, self)) ∧
  (∀ number video,
     PyStr.to_nat command = Some number →
     1 ≤ number ≤ length matching_videos →
     matching_videos !! (number - 1) = Some video →
     let played := play_video (Video.video_id (video_of self video)) self in
     result = (search_listing query self matching_videos ++ played.1,
               played.2)).

(** The library holds at most one video of each id, as a dictionary keyed
    by id does. *)
Definition distinct_ids (lib : VideoLibrary) : Prop :=
  NoDup (Video.video_id <$> lib).




(** The line [show_playlist] prints for a member of a playlist. *)
Definition member_line (self : VideoPlayer) (entry : string * vref) : string :=
  let '(video_id, video) := entry in
  formatted_video_info (video_of self video) +:+
  video_flag_status (video_of self video).




(** * Properties *)

(** ** Dictionaries *)

Section dict_facts.
Context {V : Type}.
Implicit Types (k : string) (v : V) (d : dict V).

Lemma mem_get k d : mem k d = false ↔ get k d = None.
Proof. unfold mem. destruct (get k d); split; congruence. Qed.

Lemma get_set_eq k v d : get k (set k v d) = Some v.
Proof.
  induction d as [|[k' v'] d IH]; simpl.
  - by rewrite String.eqb_refl.
  - destruct (String.eqb k k') eqn:E; simpl; rewrite E; [done | exact IH].
Qed.

Lemma get_set_ne k k' v d : k ≠ k' → get k' (set k v d) = get k' d.
Proof.
  intros Hne. induction d as [|[k1 v1] d IH]; simpl.
  - destruct (String.eqb k' k) eqn:E; [|done].
    apply String.eqb_eq in E. congruence.
  - destruct (String.eqb k k1) eqn:E; simpl.
    + apply String.eqb_eq in E. subst k1.
      destruct (String.eqb k' k) eqn:E'; [|done].
      apply String.eqb_eq in E'. congruence.
    + by rewrite IH.
Qed.

Lemma set_set k v v' d : set k v (set k v' d) = set k v d.
Proof.
  induction d as [|[k1 v1] d IH]; simpl.
  - by rewrite String.eqb_refl.
  - destruct (String.eqb k k1) eqn:E; simpl; rewrite E; [done | by rewrite IH].
Qed.

Lemma set_get_id k v d : get k d = Some v → set k v d = d.
Proof.
  induction d as [|[k1 v1] d IH]; simpl; [done|].
  destruct (String.eqb k k1) eqn:E.
  - by intros [= ->].
  - intros Hg. by rewrite IH.
Qed.

Lemma pop_set_fresh k v d : get k d = None → pop k (set k v d) = d.
Proof.
  induction d as [|[k1 v1] d IH]; simpl.
  - by rewrite String.eqb_refl.
  - destruct (String.eqb k k1) eqn:E; [done|].
    intros Hg. simpl. rewrite E. by rewrite IH.
Qed.

End dict_facts.

(** ** Sorting keeps the elements *)

Lemma elem_of_sorted_insert {A} (key : A → string) (x y : A) (l : list A) :
  y ∈ sorted_insert key x l ↔ y = x ∨ y ∈ l.
Proof.
  induction l as [|z l IH]; simpl.
  - rewrite elem_of_cons. tauto.
  - destruct (String.leb (key x) (key z)).
    + rewrite elem_of_cons. tauto.
    + rewrite !elem_of_cons, IH. tauto.
Qed.

Lemma elem_of_sorted {A} (key : A → string) (y : A) (l : list A) :
  y ∈ sorted key l ↔ y ∈ l.
Proof.
  induction l as [|x l IH]; simpl; [done|].
  rewrite elem_of_sorted_insert, elem_of_cons, IH. tauto.
Qed.

(** ** The library *)

Lemma get_video_Some (lib : VideoLibrary) (video_id : string) (video : vref) :
  get_video lib video_id = Some video →
  ∃ v, lib !! video = Some v ∧ lib !!! video = v ∧ Video.video_id v = video_id.
Proof.
  unfold get_video. intros H.
  destruct (list_find _ lib) as [[i v]|] eqn:E; simplify_eq/=.
  apply list_find_Some in E as (Hl & Hid & _).
  exists v. split_and!; [done| |done].
  by apply list_lookup_total_correct.
Qed.

Lemma get_video_lt (lib : VideoLibrary) (video_id : string) (video : vref) :
  get_video lib video_id = Some video → video < length lib.
Proof.
  intros (v & Hl & _)%get_video_Some. by eapply lookup_lt_Some.
Qed.

(** Assigning a flag reason changes no id, so a lookup by id finds the same
    object before and after. *)
Lemma get_video_same_ids (lib lib' : VideoLibrary) (video_id : string) :
  Video.video_id <$> lib' = Video.video_id <$> lib →
  get_video lib' video_id = get_video lib video_id.
Proof.
  unfold get_video. revert lib'.
  induction lib as [|v lib IH]; intros [|v' lib'] [=]; [done|].
  simpl. rewrite H0. destruct (decide _); [done|].
  specialize (IH lib' H1).
  destruct (list_find _ lib') as [[i x]|], (list_find _ lib) as [[j y]|];
    by simplify_eq/=.
Qed.

Lemma get_video_set_flag_reason (lib : VideoLibrary) (video : vref)
    (reason video_id : string) :
  get_video (<[video := Video.set_flag_reason reason (lib !!! video)]> lib)
    video_id = get_video lib video_id.
Proof.
  destruct (lib !! video) as [v|] eqn:E.
  - apply get_video_same_ids. rewrite list_fmap_insert. simpl.
    apply list_insert_id. rewrite list_lookup_fmap, E. simpl.
    by rewrite (list_lookup_total_correct _ _ _ E).
  - rewrite list_insert_ge; [done|]. by apply lookup_ge_None.
Qed.

(** ** Flags *)

Lemma is_flagged_true (v : Video.t) :
  is_flagged v = true ↔ Video.flag_reason v ≠ "".
Proof.
  unfold is_flagged. rewrite negb_true_iff, String.eqb_neq. done.
Qed.

Lemma is_flagged_false (v : Video.t) :
  is_flagged v = false ↔ Video.flag_reason v = "".
Proof.
  unfold is_flagged. rewrite negb_false_iff, String.eqb_eq. done.
Qed.

(** ** Playing a video *)

(** C1: when [play_video] fails, because the library has no video of that id
    or because the video found is flagged, the player after the call is the
    player before it, and so is its playback state; a playback state that was
    empty stays empty. *)
Theorem play_video_failure_keeps_state (self : VideoPlayer)
    (video_id : string) :
  (get_video (_video_library self) video_id = None ∨
   ∃ video, get_video (_video_library self) video_id = Some video ∧
            Video.flag_reason (video_of self video) ≠ "") →
  (play_video video_id self).2 = self ∧
  PlaybackState (play_video video_id self).2 = PlaybackState self ∧
  (PlaybackState self = (None, None) →
   PlaybackState (play_video video_id self).2 = (None, None)).
Proof.
  intros Hfail.
  assert ((play_video video_id self).2 = self) as Hsame.
  { unfold play_video. destruct Hfail as [-> | (video & -> & Hflag)]; [done|].
    apply is_flagged_true in Hflag. by rewrite Hflag. }
  rewrite Hsame. done.
Qed.

Lemma play_video_failure_keeps_state_witness :
  get_video (_video_library (__init__ example_library)) "missing_id" = None ∧
  PlaybackState (play_video "missing_id" (__init__ example_library)).2 =
    (None, None).
Proof.
  split; [reflexivity|].
  apply (play_video_failure_keeps_state (__init__ example_library)
           "missing_id"); [left|]; reflexivity.
Defined.

(** C2: playing a video that exists and is not flagged succeeds from every
    state: a video that was playing, paused or not, is stopped first (its
    stop notice comes before the play notice), and afterwards the playback
    state holds the requested video with status PLAYING, nothing else of the
    player having changed.  The video that is playing already gets no
    special treatment. *)
Theorem play_video_success (self : VideoPlayer) (video_id : string)
    (video : vref) :
  get_video (_video_library self) video_id = Some video →
  Video.flag_reason (video_of self video) = "" →
  let self' := (play_video video_id self).2 in
  PlaybackState self' = (Some video, Some PLAYING) ∧
  Video.video_id (video_of self' video) = video_id ∧
  _video_library self' = _video_library self ∧
  _all_playlists self' = _all_playlists self ∧
  (play_video video_id self).1 =
    match _currently_playing_video self with
    | Some current =>
        ["Stopping video: " +:+ Video.title (video_of self current);
         "Playing video: " +:+ Video.title (video_of self video)]
    | None => ["Playing video: " +:+ Video.title (video_of self video)]
    end ∧
  (_currently_playing_video self = Some video →
   (play_video video_id self).1 =
     ["Stopping video: " +:+ Video.title (video_of self video);
      "Playing video: " +:+ Video.title (video_of self video)]).
Proof.
  intros Hget Hflag. apply is_flagged_false in Hflag.
  destruct (get_video_Some _ _ _ Hget) as (v & _ & Hv & Hid).
  unfold play_video. rewrite Hget, Hflag. simpl.
  split_and!; try done.
  - unfold video_of. simpl. by rewrite Hv.
  - by destruct (_currently_playing_video self).
  - by intros ->.
Qed.

Lemma play_video_success_witness :
  let self :=
    (run [Play "funny_dogs_video_id"; Pause] (__init__ example_library)).2 in
  PlaybackState self = (Some 0, Some PAUSED) ∧
  get_video (_video_library self) "amazing_cats_video_id" = Some 1 ∧
  PlaybackState (play_video "amazing_cats_video_id" self).2 =
    (Some 1, Some PLAYING) ∧
  (play_video "amazing_cats_video_id" self).1 =
    ["Stopping video: Funny Dogs"; "Playing video: Amazing Cats"].
Proof.
  split; [reflexivity|]. split; [reflexivity|].
  pose proof (play_video_success
    (run [Play "funny_dogs_video_id"; Pause] (__init__ example_library)).2
    "amazing_cats_video_id" 1 eq_refl eq_refl) as (H1 & _ & _ & _ & H2 & _).
  split; [exact H1 | exact H2].
Defined.

(** ** Pausing *)

Lemma pause_video_paused (self : VideoPlayer) (current : vref) :
  _currently_playing_video self = Some current →
  _current_video_status self = Some PAUSED →
  pause_video self =
    (["Video already paused: " +:+ Video.title (video_of self current)], self).
Proof.
  intros Hplaying Hstatus. unfold pause_video.
  rewrite Hplaying, Hstatus. by rewrite bool_decide_eq_true_2.
Qed.

Lemma pause_video_playing (self : VideoPlayer) (current : vref) :
  _currently_playing_video self = Some current →
  let self' := (pause_video self).2 in
  _currently_playing_video self' = Some current ∧
  _current_video_status self' = Some PAUSED ∧
  _video_library self' = _video_library self.
Proof.
  intros Hplaying. unfold pause_video. rewrite Hplaying.
  case_bool_decide as Hstatus; simpl; by rewrite ?Hplaying, ?Hstatus.
Qed.

Lemma run_pause_paused (n : nat) (self : VideoPlayer) (current : vref) :
  _currently_playing_video self = Some current →
  _current_video_status self = Some PAUSED →
  run (replicate n Pause) self =
    (replicate n
       ("Video already paused: " +:+ Video.title (video_of self current)),
     self).
Proof.
  intros Hplaying Hstatus. induction n as [|n IH]; simpl; [done|].
  by rewrite (pause_video_paused _ _ Hplaying Hstatus), IH.
Qed.

Lemma run_pause_S (n : nat) (self : VideoPlayer) (current : vref) :
  _currently_playing_video self = Some current →
  run (replicate (S n) Pause) self =
    ((pause_video self).1 ++
     replicate n
       ("Video already paused: " +:+ Video.title (video_of self current)),
     (pause_video self).2).
Proof.
  intros Hplaying.
  destruct (pause_video_playing _ _ Hplaying) as (Hp & Hs & Hlib).
  simpl. destruct (pause_video self) as [out self1] eqn:E. simpl in *.
  rewrite (run_pause_paused _ _ _ Hp Hs).
  unfold video_of. by rewrite Hlib.
Qed.

(** C7: while a video is playing, [n ≥ 2] pauses in a row leave the player,
    and so the playback state, as the first pause left it: each of the calls
    2..n prints the "already paused" notice and changes nothing, whatever
    the number of calls made so far. *)
Theorem pause_video_idempotent (self : VideoPlayer) (current : vref)
    (n : nat) :
  _currently_playing_video self = Some current →
  2 ≤ n →
  (run (replicate n Pause) self).2 = (pause_video self).2 ∧
  PlaybackState (run (replicate n Pause) self).2 =
    PlaybackState (pause_video self).2 ∧
  PlaybackState (pause_video self).2 = (Some current, Some PAUSED) ∧
  (run (replicate n Pause) self).1 =
    (pause_video self).1 ++
    replicate (n - 1)
      ("Video already paused: " +:+ Video.title (video_of self current)) ∧
  (∀ k, 1 ≤ k → k ≤ n →
        (run (replicate k Pause) self).2 = (pause_video self).2).
Proof.
  intros Hplaying Hn.
  destruct (pause_video_playing _ _ Hplaying) as (Hp & Hs & _).
  destruct n as [|n]; [lia|].
  rewrite (run_pause_S _ _ _ Hplaying). simpl.
  replace (n - 0) with n by lia.
  split_and!; try done.
  - unfold PlaybackState. by rewrite Hp, Hs.
  - intros [|k] Hk1 Hk2; [lia|]. by rewrite (run_pause_S _ _ _ Hplaying).
Qed.

Lemma pause_video_idempotent_witness :
  let self := (play_video "funny_dogs_video_id" (__init__ example_library)).2 in
  _currently_playing_video self = Some 0 ∧
  2 ≤ 3 ∧
  PlaybackState (run [Pause; Pause; Pause] self).2 =
    PlaybackState (pause_video self).2 ∧
  (run [Pause; Pause; Pause] self).1 =
    ["Pausing video: Funny Dogs"; "Video already paused: Funny Dogs";
     "Video already paused: Funny Dogs"].
Proof.
  split; [reflexivity|]. split; [lia|].
  pose proof (pause_video_idempotent
    (play_video "funny_dogs_video_id" (__init__ example_library)).2 0 3
    eq_refl ltac:(lia)) as (_ & H1 & _ & H2 & _).
  split; [exact H1 | exact H2].
Defined.

(** ** Flagging and allowing *)

(** What [show_playing] prints of a video does not mention its flag. *)
Lemma formatted_video_info_set_flag_reason (lib : VideoLibrary)
    (video current : vref) (reason : string) :
  formatted_video_info
    (<[video := Video.set_flag_reason reason (lib !!! video)]> lib !!! current)
  = formatted_video_info (lib !!! current).
Proof.
  destruct (decide (video = current)) as [->|Hne].
  - destruct (decide (current < length lib)) as [Hlt|Hge].
    + by rewrite list_lookup_total_insert_eq.
    + rewrite list_insert_ge; [done|lia].
  - by rewrite list_lookup_total_insert_ne.
Qed.

Lemma show_playing_set_library (lib : VideoLibrary) (self : VideoPlayer) :
  (∀ current,
     formatted_video_info (lib !!! current) =
     formatted_video_info (video_of self current)) →
  (show_playing (set_library lib self)).1 = (show_playing self).1.
Proof.
  intros Hinfo. unfold show_playing. simpl.
  destruct (_currently_playing_video self) as [current|]; [|done].
  simpl. unfold video_of at 1 2. simpl. by rewrite Hinfo.
Qed.

(** C8: flagging a video that exists and is not flagged yet succeeds.  The
    video is found under its id afterwards with the given reason as its flag
    reason, or "Not supplied" when no reason or the empty one was given.  If
    it was the video that is playing, in whatever status, it is stopped
    first: the stop notice precedes the confirmation, the playback state is
    empty afterwards and [show_playing] reports that nothing is playing. *)
Theorem flag_video_success (self : VideoPlayer) (video_id : string)
    (flag_reason : option string) (video : vref) :
  get_video (_video_library self) video_id = Some video →
  Video.flag_reason (video_of self video) = "" →
  let self' := (flag_video video_id flag_reason self).2 in
  get_video (_video_library self') video_id = Some video ∧
  Video.flag_reason (video_of self' video) = recorded_reason flag_reason ∧
  (flag_reason = None ∨ flag_reason = Some "" →
   Video.flag_reason (video_of self' video) = "Not supplied") ∧
  (∀ reason, flag_reason = Some reason → reason ≠ "" →
   Video.flag_reason (video_of self' video) = reason) ∧
  last (flag_video video_id flag_reason self).1 =
    Some ("Successfully flagged video: " +:+ Video.title (video_of self video)
          +:+ " (reason: " +:+ recorded_reason flag_reason +:+ ")") ∧
  (∀ current,
     _currently_playing_video self = Some current →
     Video.video_id (video_of self current) = video_id →
     PlaybackState self' = (None, None) ∧
     (show_playing self').1 = ["No video is currently playing"] ∧
     (flag_video video_id flag_reason self).1 =
       ["Stopping video: " +:+ Video.title (video_of self current);
        "Successfully flagged video: " +:+ Video.title (video_of self video)
          +:+ " (reason: " +:+ recorded_reason flag_reason +:+ ")"]).
Proof.
  intros Hget Hflag. apply is_flagged_false in Hflag.
  pose proof (get_video_lt _ _ _ Hget) as Hlt.
  assert ((if negb (String.eqb (default "" flag_reason) "")
           then default "" flag_reason else "Not supplied")
          = recorded_reason flag_reason) as Hreason.
  { destruct flag_reason as [reason|]; simpl; [|done].
    by destruct (String.eqb reason ""). }
  assert (Video.flag_reason (video_of (flag_video video_id flag_reason self).2
                               video) = recorded_reason flag_reason) as Hrec.
  { unfold flag_video. rewrite Hget, Hflag, Hreason.
    destruct (_currently_playing_video self) as [current|] eqn:Hplaying;
      [destruct (String.eqb video_id _); unfold stop_video;
       rewrite ?Hplaying|];
      simpl; unfold video_of; simpl;
      by rewrite list_lookup_total_insert_eq. }
  simpl. split_and!.
  - unfold flag_video. rewrite Hget, Hflag.
    destruct (_currently_playing_video self) as [current|] eqn:Hplaying;
      [destruct (String.eqb video_id _); unfold stop_video;
       rewrite ?Hplaying|];
      simpl; unfold video_of; simpl;
      by rewrite get_video_set_flag_reason.
  - exact Hrec.
  - rewrite Hrec. by intros [-> | ->].
  - rewrite Hrec. intros reason -> Hne. simpl.
    apply String.eqb_neq in Hne. by rewrite Hne.
  - unfold flag_video. rewrite Hget, Hflag, Hreason.
    destruct (_currently_playing_video self) as [current|] eqn:Hplaying;
      [destruct (String.eqb video_id _); unfold stop_video;
       rewrite ?Hplaying|];
      simpl; unfold video_of; simpl;
      by rewrite list_lookup_total_insert_eq.
  - intros current Hplaying Hid.
    unfold flag_video. rewrite Hget, Hflag, Hreason, Hplaying, Hid.
    rewrite String.eqb_refl. unfold stop_video. rewrite Hplaying.
    simpl. unfold video_of. simpl.
    by rewrite list_lookup_total_insert_eq.
Qed.

Lemma flag_video_success_witness :
  let self := (play_video "funny_dogs_video_id" (__init__ example_library)).2 in
  get_video (_video_library self) "funny_dogs_video_id" = Some 0 ∧
  Video.flag_reason (video_of self 0) = "" ∧
  PlaybackState self = (Some 0, Some PLAYING) ∧
  Video.flag_reason
    (video_of (flag_video "funny_dogs_video_id" None self).2 0) =
    "Not supplied" ∧
  (show_playing (flag_video "funny_dogs_video_id" None self).2).1 =
    ["No video is currently playing"].
Proof.
  split; [reflexivity|]. split; [reflexivity|]. split; [reflexivity|].
  pose proof (flag_video_success
    (play_video "funny_dogs_video_id" (__init__ example_library)).2
    "funny_dogs_video_id" None 0 eq_refl eq_refl)
    as (_ & H1 & _ & _ & _ & H2).
  split; [exact H1|].
  exact (proj1 (proj2 (H2 0 eq_refl eq_refl))).
Defined.

Lemma allow_video_playback (self : VideoPlayer) (video_id : string) :
  PlaybackState (allow_video video_id self).2 = PlaybackState self.
Proof.
  unfold allow_video.
  destruct (get_video _ video_id) as [video|]; [|done].
  by destruct (is_flagged _).
Qed.

Lemma allow_video_show_playing (self : VideoPlayer) (video_id : string) :
  (show_playing (allow_video video_id self).2).1 = (show_playing self).1.
Proof.
  unfold allow_video.
  destruct (get_video _ video_id) as [video|]; [|done].
  destruct (is_flagged _); [|done]. simpl.
  apply show_playing_set_library. intros current.
  apply formatted_video_info_set_flag_reason.
Qed.

(** C10: flagging a video other than the one that is playing, or any video
    when nothing is playing, leaves the playback state as it was (and so
    what [show_playing] prints), whether the flagging succeeds or not; and
    [allow_video] leaves the playback state as it was in every case. *)
Theorem flag_allow_keep_playback (self : VideoPlayer) (video_id : string)
    (flag_reason : option string) :
  ((∀ current,
      _currently_playing_video self = Some current →
      Video.video_id (video_of self current) ≠ video_id) →
   PlaybackState (flag_video video_id flag_reason self).2 =
     PlaybackState self ∧
   (show_playing (flag_video video_id flag_reason self).2).1 =
     (show_playing self).1) ∧
  PlaybackState (allow_video video_id self).2 = PlaybackState self ∧
  (show_playing (allow_video video_id self).2).1 = (show_playing self).1.
Proof.
  split; [|split; [apply allow_video_playback|apply allow_video_show_playing]].
  intros Hother. unfold flag_video.
  destruct (get_video _ video_id) as [video|]; [|done].
  destruct (is_flagged _); [done|].
  assert ((match _currently_playing_video self with
           | Some current =>
               if String.eqb video_id (Video.video_id (video_of self current))
               then stop_video self else ([], self)
           | None => ([], self)
           end) = ([], self)) as ->.
  { destruct (_currently_playing_video self) as [current|]; [|done].
    destruct (String.eqb video_id _) eqn:E; [|done].
    apply String.eqb_eq in E. by destruct (Hother current). }
  simpl. split; [done|].
  apply show_playing_set_library. intros current.
  apply formatted_video_info_set_flag_reason.
Qed.

Lemma flag_allow_keep_playback_witness :
  let self := (play_video "funny_dogs_video_id" (__init__ example_library)).2 in
  (∀ current,
     _currently_playing_video self = Some current →
     Video.video_id (video_of self current) ≠ "amazing_cats_video_id") ∧
  PlaybackState (flag_video "amazing_cats_video_id" (Some "dull") self).2 =
    (Some 0, Some PLAYING).
Proof.
  assert (∀ current,
    _currently_playing_video
      (play_video "funny_dogs_video_id" (__init__ example_library)).2 =
      Some current →
    Video.video_id
      (video_of (play_video "funny_dogs_video_id" (__init__ example_library)).2
         current) ≠ "amazing_cats_video_id") as Hother.
  { intros current [= <-]. discriminate. }
  split; [exact Hother|].
  exact (proj1 (proj1 (flag_allow_keep_playback
    (play_video "funny_dogs_video_id" (__init__ example_library)).2
    "amazing_cats_video_id" (Some "dull")) Hother)).
Defined.

(** ** The playback invariant *)

Lemma playback_invariant_eq (self self' : VideoPlayer) :
  PlaybackState self' = PlaybackState self →
  playback_invariant self → playback_invariant self'.
Proof.
  unfold PlaybackState, playback_invariant. by intros [= -> ->].
Qed.

Lemma playback_invariant_init (library : VideoLibrary) :
  playback_invariant (__init__ library).
Proof. split; [done | by left]. Qed.

Lemma play_video_invariant (video_id : string) (self : VideoPlayer) :
  playback_invariant self → playback_invariant (play_video video_id self).2.
Proof.
  intros Hinv. unfold play_video.
  destruct (get_video _ video_id) as [video|]; [|done].
  destruct (is_flagged _); [done|].
  split; simpl; [split; discriminate | right; by left].
Qed.

Lemma stop_video_invariant (self : VideoPlayer) :
  playback_invariant self → playback_invariant (stop_video self).2.
Proof.
  intros Hinv. unfold stop_video.
  destruct (_currently_playing_video self); [|done].
  split; simpl; [done | by left].
Qed.

Lemma flag_video_invariant (video_id : string) (flag_reason : option string)
    (self : VideoPlayer) :
  playback_invariant self →
  playback_invariant (flag_video video_id flag_reason self).2.
Proof.
  intros Hinv. unfold flag_video.
  destruct (get_video _ video_id) as [video|]; [|done].
  destruct (is_flagged _); [done|].
  pose proof (stop_video_invariant self Hinv) as Hstop.
  destruct (_currently_playing_video self) as [current|] eqn:Hplaying;
    [destruct (String.eqb video_id _)|]; [destruct (stop_video self)|..];
    exact Hstop || exact Hinv.
Qed.

Lemma execute_invariant (c : command) (self : VideoPlayer) :
  playback_invariant self → playback_invariant (execute c self).2.
Proof.
  intros Hinv.
  destruct c; simpl.
  - done.
  - done.
  - by apply play_video_invariant.
  - by apply stop_video_invariant.
  - unfold play_random_video. destruct (_ =? 0); [done|].
    by apply play_video_invariant.
  - unfold pause_video.
    destruct (_currently_playing_video self) as [current|] eqn:Hplaying;
      [|done].
    case_bool_decide; [done|].
    split; simpl; [rewrite Hplaying; split; discriminate | by right; right].
  - unfold continue_video.
    destruct (_currently_playing_video self) as [current|] eqn:Hplaying;
      [|done].
    case_bool_decide; [done|].
    split; simpl; [rewrite Hplaying; split; discriminate | by right; left].
  - unfold show_playing. by destruct (_currently_playing_video self).
  - unfold create_playlist. by destruct (mem _ _).
  - unfold add_to_playlist. destruct (get _ _); [|done].
    destruct (get_video _ _); [|done]. destruct (is_flagged _); [done|].
    by destruct (mem _ _).
  - unfold show_all_playlists. by destruct (_all_playlists self).
  - unfold show_playlist. destruct (get _ _) as [playlist|]; [|done].
    by destruct (Playlist.videos playlist).
  - unfold remove_from_playlist. destruct (get _ _); [|done].
    destruct (get_video _ _); [|done]. by destruct (negb _).
  - unfold clear_playlist. by destruct (get _ _).
  - unfold delete_playlist. by destruct (negb _).
  - by apply flag_video_invariant.
  - eapply playback_invariant_eq; [apply allow_video_playback | done].
Qed.

(** C9: every command keeps the playback invariant: after it, as before it,
    the status is absent exactly when no video is playing, and a status that
    is present is PLAYING or PAUSED. *)
Theorem execute_keeps_playback_invariant (c : command) (self : VideoPlayer) :
  playback_invariant self → playback_invariant (execute c self).2.
Proof. apply execute_invariant. Qed.

Lemma execute_keeps_playback_invariant_witness :
  playback_invariant (__init__ example_library) ∧
  playback_invariant
    (execute (Play "funny_dogs_video_id") (__init__ example_library)).2.
Proof.
  assert (playback_invariant (__init__ example_library)) as Hinit.
  { split; [split; reflexivity | left; reflexivity]. }
  split; [exact Hinit|].
  exact (execute_keeps_playback_invariant (Play "funny_dogs_video_id")
           (__init__ example_library) Hinit).
Defined.

(** The invariant holds in every state that commands reach from the start,
    and the selection made after a search keeps it too. *)
Lemma run_playback_invariant (cs : list command) (self : VideoPlayer) :
  playback_invariant self → playback_invariant (run cs self).2.
Proof.
  revert self. induction cs as [|c cs IH]; intros self Hinv; simpl; [done|].
  pose proof (execute_invariant c self Hinv) as Hc.
  destruct (execute c self) as [out self1]. simpl in Hc.
  specialize (IH self1 Hc). by destruct (run cs self1).
Qed.

Lemma reachable_playback_invariant (library : VideoLibrary)
    (cs : list command) :
  playback_invariant (run cs (__init__ library)).2.
Proof. apply run_playback_invariant, playback_invariant_init. Qed.

Lemma process_command_invariant (command : string)
    (matching_videos : list vref) (self : VideoPlayer) (r : command_result) :
  process_command command matching_videos self = Some r →
  playback_invariant self → playback_invariant r.2.
Proof.
  unfold process_command. intros Hr Hinv.
  destruct (PyStr.to_nat command); [|done].
  destruct (_ && _); simplify_eq; [by apply play_video_invariant | done].
Qed.

Lemma search_videos_invariant (search_term command : string)
    (self : VideoPlayer) :
  playback_invariant self →
  playback_invariant (search_videos search_term command self).2 ∧
  playback_invariant (search_videos_tag search_term command self).2.
Proof.
  intros Hinv. unfold search_videos, search_videos_tag.
  split; (destruct (_ =? 0); [done|]);
    (destruct (process_command _ _ _) as [[played self']|] eqn:E; [|done]);
    by apply (process_command_invariant _ _ _ _ E).
Qed.

(** ** Playlist names *)

Lemma get_Some_values {V} (k : string) (v : V) (d : dict V) :
  get k d = Some v → v ∈ values d.
Proof.
  unfold values. induction d as [|[k' v'] d IH]; simpl; [done|].
  destruct (String.eqb k k').
  - intros [= ->]. apply elem_of_cons. by left.
  - intros Hg. apply elem_of_cons. right. by apply IH.
Qed.

Lemma set_not_nil {V} (k : string) (v : V) (d : dict V) : set k v d ≠ [].
Proof. destruct d as [|[k' v'] d]; simpl; [done|]. by destruct (String.eqb _ _). Qed.

(** C3, as the code has it: names that differ in case only are one name for
    existence checks and lookups.  After a playlist is created under
    [name1], creating [name2] fails with the already-exists message, and
    [show_playlist name2] finds the playlist; its heading repeats the name
    the caller typed, [name2].  The title given at creation is the one the
    playlist keeps, and the one [show_all_playlists] lists. *)
Theorem playlist_names_ignore_case (self : VideoPlayer)
    (name1 name2 : string) :
  PyStr.lower name1 = PyStr.lower name2 →
  mem (PyStr.lower name1) (_all_playlists self) = false →
  let self1 := (create_playlist name1 self).2 in
  (create_playlist name1 self).1 =
    ["Successfully created new playlist: " +:+ name1] ∧
  create_playlist name2 self1 =
    (["Cannot create playlist: A playlist with the same name already exists."],
     self1) ∧
  show_playlist name2 self1 =
    (["Showing playlist: " +:+ name2; "  No videos here yet"], self1) ∧
  Playlist.title <$> get (PyStr.lower name2) (_all_playlists self1) =
    Some name1 ∧
  "  " +:+ name1 ∈ (show_all_playlists self1).1.
Proof.
  intros Hlower Hfresh.
  assert (create_playlist name1 self =
    (["Successfully created new playlist: " +:+ name1],
     set_playlists
       (set (PyStr.lower name1) (Playlist.__init__ name1)
          (_all_playlists self)) self)) as Hcreate.
  { unfold create_playlist. by rewrite Hfresh. }
  rewrite Hcreate. simpl.
  split_and!.
  - done.
  - unfold create_playlist. simpl. rewrite <- Hlower.
    unfold mem. by rewrite get_set_eq.
  - unfold show_playlist. simpl. rewrite <- Hlower. by rewrite get_set_eq.
  - rewrite <- Hlower. by rewrite get_set_eq.
  - unfold show_all_playlists. simpl.
    pose proof (set_not_nil (PyStr.lower name1) (Playlist.__init__ name1)
                  (_all_playlists self)) as Hne.
    destruct (set _ _ _) eqn:E; [done|]. rewrite <- E. simpl.
    apply elem_of_cons. right.
    apply (list_elem_of_fmap_2 (λ playlist, "  " +:+ Playlist.title playlist)
             _ (Playlist.__init__ name1)).
    apply elem_of_sorted. apply (get_Some_values (PyStr.lower name1)).
    apply get_set_eq.
Qed.

Lemma playlist_names_ignore_case_witness :
  PyStr.lower "Foo" = PyStr.lower "FOO" ∧
  mem (PyStr.lower "Foo") (_all_playlists (__init__ example_library)) = false ∧
  show_playlist "FOO" (create_playlist "Foo" (__init__ example_library)).2 =
    (["Showing playlist: FOO"; "  No videos here yet"],
     (create_playlist "Foo" (__init__ example_library)).2).
Proof.
  split; [reflexivity|]. split; [reflexivity|].
  exact (proj1 (proj2 (proj2 (playlist_names_ignore_case
    (__init__ example_library) "Foo" "FOO" eq_refl eq_refl)))).
Defined.

(** C3 as stated fails: after "Foo" is created, [show_playlist "FOO"]
    displays no line that contains "Foo". *)
Lemma show_playlist_repeats_caller_name :
  let self1 := (create_playlist "Foo" (__init__ example_library)).2 in
  (create_playlist "foo" self1).1 =
    ["Cannot create playlist: A playlist with the same name already exists."] ∧
  (show_playlist "FOO" self1).1 =
    ["Showing playlist: FOO"; "  No videos here yet"] ∧
  ¬ displays (show_playlist "FOO" self1).1 "Foo".
Proof.
  split; [reflexivity|]. split; [reflexivity|].
  intros (line & Hin & Hcontains). simpl in Hin.
  apply elem_of_cons in Hin as [-> | Hin]; [by vm_compute in Hcontains|].
  apply elem_of_cons in Hin as [-> | Hin]; [by vm_compute in Hcontains|].
  by apply elem_of_nil in Hin.
Qed.

(** ** Adding to a playlist and removing again *)

(** C6, as the code has it: for a playlist of the store and a video id that
    is not a member of it yet, [add_to_playlist] followed by
    [remove_from_playlist] gives back the player it started from: the
    playlist has the members it had, in the order it had them, and so has
    every other playlist. *)
Theorem add_then_remove_restores (self : VideoPlayer)
    (playlist_name video_id : string) (playlist : Playlist.t) :
  get (PyStr.lower playlist_name) (_all_playlists self) = Some playlist →
  mem video_id (Playlist.videos playlist) = false →
  let self1 := (add_to_playlist playlist_name video_id self).2 in
  let self2 := (remove_from_playlist playlist_name video_id self1).2 in
  self2 = self ∧
  get (PyStr.lower playlist_name) (_all_playlists self2) = Some playlist.
Proof.
  intros Hplaylist Hfresh. simpl.
  assert ((remove_from_playlist playlist_name video_id
             (add_to_playlist playlist_name video_id self).2).2 = self)
    as Hsame; [|by rewrite Hsame].
  unfold add_to_playlist. rewrite Hplaylist.
  destruct (get_video (_video_library self) video_id) as [video|] eqn:Hget.
  - destruct (get_video_Some _ _ _ Hget) as (v & _ & Hv & Hid).
    destruct (is_flagged (video_of self video)) eqn:Hflag.
    + simpl. unfold remove_from_playlist. rewrite Hplaylist, Hget, Hfresh.
      done.
    + rewrite Hfresh. simpl. unfold remove_from_playlist. simpl.
      rewrite get_set_eq, Hget. simpl.
      unfold Playlist.add_video, Playlist.remove_video, Playlist.videos.
      simpl. rewrite Hv, Hid.
      unfold mem at 1. rewrite get_set_eq. simpl.
      rewrite pop_set_fresh by by apply mem_get.
      rewrite set_set.
      destruct playlist as [title videos]. simpl.
      rewrite (set_get_id _ _ _ Hplaylist). by destruct self.
  - simpl. unfold remove_from_playlist. by rewrite Hplaylist, Hget.
Qed.

Lemma add_then_remove_restores_witness :
  let self := (create_playlist "Fun" (__init__ example_library)).2 in
  get (PyStr.lower "fun") (_all_playlists self) =
    Some (Playlist.__init__ "Fun") ∧
  mem "funny_dogs_video_id" (Playlist.videos (Playlist.__init__ "Fun")) =
    false ∧
  (remove_from_playlist "fun" "funny_dogs_video_id"
     (add_to_playlist "fun" "funny_dogs_video_id" self).2).2 = self.
Proof.
  split; [reflexivity|]. split; [reflexivity|].
  exact (proj1 (add_then_remove_restores
    (create_playlist "Fun" (__init__ example_library)).2
    "fun" "funny_dogs_video_id" (Playlist.__init__ "Fun") eq_refl eq_refl)).
Defined.

(** C6 as stated fails for a video that is a member already: the addition
    is refused, the removal goes through, and the playlist is left without
    the video. *)
Lemma add_then_remove_loses_member :
  let self :=
    (run [CreatePlaylist "Fun"; AddToPlaylist "Fun" "funny_dogs_video_id"]
       (__init__ example_library)).2 in
  let self1 := (add_to_playlist "Fun" "funny_dogs_video_id" self).2 in
  let self2 := (remove_from_playlist "Fun" "funny_dogs_video_id" self1).2 in
  Playlist.videos <$> get "fun" (_all_playlists self) =
    Some [("funny_dogs_video_id", 0)] ∧
  (add_to_playlist "Fun" "funny_dogs_video_id" self).1 =
    ["Cannot add video to Fun: Video already added"] ∧
  Playlist.videos <$> get "fun" (_all_playlists self2) = Some [] ∧
  _all_playlists self2 ≠ _all_playlists self.
Proof.
  split; [reflexivity|]. split; [reflexivity|]. split; [reflexivity|].
  vm_compute. discriminate.
Qed.

(** ** Searching *)

(** C4 fails on the code: the results are listed and numbered in the order
    of the library, here "Funny Dogs" before "Amazing Cats", and not in the
    order of their titles. *)
Theorem search_lists_in_library_order :
  let self := __init__ example_library in
  (search_videos_tag "#animal" "no" self).1 =
    ["Here are the results for #animal:";
     "1) Funny Dogs (funny_dogs_video_id) [#dog #animal]";
     "2) Amazing Cats (amazing_cats_video_id) [#cat #animal]";
     "3) Another Cat Video (another_cat_video_id) [#cat #animal]";
     selection_prompt] ∧
  (search_videos "o" "no" self).1 =
    ["Here are the results for o:";
     "1) Funny Dogs (funny_dogs_video_id) [#dog #animal]";
     "2) Another Cat Video (another_cat_video_id) [#cat #animal]";
     selection_prompt] ∧
  is_sorted Video.title (video_of self <$> matching_tag "#animal" self) =
    false ∧
  is_sorted Video.title (video_of self <$> matching_title "o" self) = false ∧
  video_of self <$>
    sorted (λ video, Video.title (video_of self video))
      (matching_tag "#animal" self) =
    [amazing_cats; another_cat; funny_dogs].
Proof. repeat split; reflexivity. Qed.

Lemma process_command_no_selection (command : string)
    (matching_videos : list vref) (self : VideoPlayer) :
  (∀ number, PyStr.to_nat command = Some number →
             ¬ (1 ≤ number ≤ length matching_videos)) →
  process_command command matching_videos self = None ∨
  process_command command matching_videos self = Some ([], self).
Proof.
  intros Hinvalid. unfold process_command.
  destruct (PyStr.to_nat command) as [number|]; [|by left].
  right. destruct (_ && _) eqn:E; [|done].
  apply andb_true_iff in E as [H1 H2].
  apply Nat.leb_le in H1, H2. by destruct (Hinvalid number).
Qed.

Lemma process_command_selection (command : string)
    (matching_videos : list vref) (self : VideoPlayer) (number : nat)
    (video : vref) :
  PyStr.to_nat command = Some number →
  1 ≤ number ≤ length matching_videos →
  matching_videos !! (number - 1) = Some video →
  process_command command matching_videos self =
    Some (play_video (Video.video_id (video_of self video)) self).
Proof.
  intros Hnumber [H1 H2] Hvideo. unfold process_command. rewrite Hnumber.
  apply Nat.leb_le in H1, H2. rewrite H1, H2. simpl.
  by rewrite (list_lookup_total_correct _ _ _ Hvideo).
Qed.

Lemma selection_step (query command : string) (self : VideoPlayer)
    (matching_videos : list vref) :
  selection_outcome query command self matching_videos
    (let shown := search_listing query self matching_videos in
     match process_command command matching_videos self with
     | Some (played, self') => (shown ++ played, self')
     | None => (shown, self)
     end).
Proof.
  split.
  - intros Hinvalid.
    destruct (process_command_no_selection _ _ self Hinvalid) as [-> | ->];
      cbv beta zeta iota; [done|]. by rewrite app_nil_r.
  - intros number video Hnumber Hrange Hvideo. cbv zeta.
    rewrite (process_command_selection _ _ _ _ _ Hnumber Hrange Hvideo).
    by destruct (play_video _ self).
Qed.

(** C5: after a search that found N > 0 videos, a line that is not an
    integer within [1, N] makes no selection: the search returns the listing
    and the player as it was.  A line that is such an integer plays the
    video listed under that number, with the lines and the resulting player
    of [play_video] on its id.  Both searches behave so. *)
Theorem search_selection_step (query command : string) (self : VideoPlayer) :
  (matching_title query self ≠ [] →
   selection_outcome query command self (matching_title query self)
     (search_videos query command self)) ∧
  (matching_tag query self ≠ [] →
   selection_outcome query command self (matching_tag query self)
     (search_videos_tag query command self)).
Proof.
  split; intros Hne.
  - unfold search_videos.
    destruct (matching_title query self) as [|video rest] eqn:E; [done|].
    apply selection_step.
  - unfold search_videos_tag.
    destruct (matching_tag query self) as [|video rest] eqn:E; [done|].
    apply selection_step.
Qed.

Lemma search_selection_step_witness :
  let self := __init__ example_library in
  matching_title "cat" self = [1; 2] ∧
  PyStr.to_nat "2" = Some 2 ∧
  PyStr.to_nat "9" = Some 9 ∧
  PyStr.to_nat "two" = None ∧
  search_videos "cat" "2" self =
    (search_listing "cat" self [1; 2] ++ ["Playing video: Another Cat Video"],
     (play_video "another_cat_video_id" self).2) ∧
  search_videos "cat" "9" self = (search_listing "cat" self [1; 2], self) ∧
  search_videos "cat" "two" self = (search_listing "cat" self [1; 2], self).
Proof.
  assert (matching_title "cat" (__init__ example_library) ≠ []) as Hne
    by discriminate.
  assert (1 ≤ 2 ≤ length (matching_title "cat" (__init__ example_library)))
    as Hrange by (simpl; lia).
  split; [reflexivity|]. split; [reflexivity|]. split; [reflexivity|].
  split; [reflexivity|].
  split; [|split].
  - exact (proj2 (proj1 (search_selection_step "cat" "2"
             (__init__ example_library)) Hne) 2 2 eq_refl Hrange eq_refl).
  - apply (proj1 (proj1 (search_selection_step "cat" "9"
             (__init__ example_library)) Hne)).
    intros number [= <-]. simpl. lia.
  - apply (proj1 (proj1 (search_selection_step "cat" "two"
             (__init__ example_library)) Hne)).
    intros number [=].
Defined.

(** ** References stay valid

    The total lookup [!!!] returns a default video for a position outside
    the library.  No state that commands reach from the start holds such a
    position, so the default never shows. *)

Lemma get_elem_of {V} (k : string) (v : V) (d : dict V) :
  get k d = Some v → (k, v) ∈ d.
Proof.
  induction d as [|[k' v'] d IH]; simpl; [done|].
  destruct (String.eqb k k') eqn:E.
  - apply String.eqb_eq in E as ->. intros [= ->]. apply elem_of_cons. by left.
  - intros Hg. apply elem_of_cons. right. by apply IH.
Qed.

Lemma elem_of_set {V} (k : string) (v : V) (d : dict V) (x : string * V) :
  x ∈ set k v d → x = (k, v) ∨ x ∈ d.
Proof.
  induction d as [|[k' v'] d IH]; simpl.
  - intros ->%list_elem_of_singleton. by left.
  - destruct (String.eqb k k') eqn:E.
    + apply String.eqb_eq in E as <-.
      intros [-> | Hin]%elem_of_cons; [by left|].
      right. apply elem_of_cons. by right.
    + intros [-> | Hin]%elem_of_cons.
      * right. apply elem_of_cons. by left.
      * destruct (IH Hin) as [-> | Hd]; [by left|].
        right. apply elem_of_cons. by right.
Qed.

Lemma elem_of_pop {V} (k : string) (d : dict V) (x : string * V) :
  x ∈ pop k d → x ∈ d.
Proof.
  induction d as [|[k' v'] d IH]; simpl; [done|].
  destruct (String.eqb k k').
  - intros Hin. apply elem_of_cons. by right.
  - intros [-> | Hin]%elem_of_cons; apply elem_of_cons; [by left|].
    right. by apply IH.
Qed.

Lemma lookup_id_set_flag_reason (lib : VideoLibrary) (video other : vref)
    (reason : string) :
  Video.video_id <$>
    <[video := Video.set_flag_reason reason (lib !!! video)]> lib !! other
  = Video.video_id <$> lib !! other.
Proof.
  destruct (decide (video = other)) as [->|Hne].
  - destruct (lib !! other) as [v|] eqn:E.
    + rewrite list_lookup_insert_eq by by eapply lookup_lt_Some.
      by rewrite (list_lookup_total_correct _ _ _ E).
    + rewrite list_insert_ge; [by rewrite E|]. by apply lookup_ge_None.
  - by rewrite list_lookup_insert_ne.
Qed.

Lemma references_valid_set_flag_reason (self : VideoPlayer) (video : vref)
    (reason : string) :
  references_valid self →
  references_valid
    (set_library
       (<[video := Video.set_flag_reason reason (video_of self video)]>
          (_video_library self)) self).
Proof.
  intros [Hplaying Hmembers]. split; simpl.
  - intros current Hc. rewrite length_insert. by apply Hplaying.
  - intros name playlist video_id member Hp Hm. unfold video_of.
    rewrite lookup_id_set_flag_reason. by eapply Hmembers.
Qed.

Lemma references_valid_set_playback (self : VideoPlayer)
    (video : option vref) (status : option Z) :
  (∀ current, video = Some current → current < length (_video_library self)) →
  references_valid self → references_valid (set_playback video status self).
Proof. intros Hvideo [_ Hmembers]. by split. Qed.

Lemma references_valid_set_playlists (self : VideoPlayer)
    (playlists : dict Playlist.t) :
  (∀ name playlist video_id video,
     (name, playlist) ∈ playlists →
     (video_id, video) ∈ Playlist.videos playlist →
     (Playlist.videos playlist = [] ∨
      (∃ name', (name', playlist) ∈ _all_playlists self) ∨
      Video.video_id <$> _video_library self !! video = Some video_id)) →
  references_valid self → references_valid (set_playlists playlists self).
Proof.
  intros Hnew [Hplaying Hmembers]. split; simpl; [done|].
  intros name playlist video_id video Hp Hm.
  destruct (Hnew _ _ _ _ Hp Hm) as [Hnil | [[name' Hold] | Hvalid]].
  - rewrite Hnil in Hm. by apply elem_of_nil in Hm.
  - by eapply Hmembers.
  - done.
Qed.

Lemma play_video_references_valid (video_id : string) (self : VideoPlayer) :
  references_valid self → references_valid (play_video video_id self).2.
Proof.
  intros Hvalid. unfold play_video.
  destruct (get_video _ video_id) as [video|] eqn:Hget; [|done].
  destruct (is_flagged _); [done|]. simpl.
  apply references_valid_set_playback; [|done].
  intros current [= <-]. by eapply get_video_lt.
Qed.

Lemma stop_video_references_valid (self : VideoPlayer) :
  references_valid self → references_valid (stop_video self).2.
Proof.
  intros Hvalid. unfold stop_video.
  destruct (_currently_playing_video self); [|done]. simpl.
  by apply references_valid_set_playback.
Qed.

Lemma execute_references_valid (c : command) (self : VideoPlayer) :
  references_valid self → references_valid (execute c self).2.
Proof.
  intros Hvalid. pose proof Hvalid as [Hplaying Hmembers].
  destruct c; simpl.
  - done.
  - done.
  - by apply play_video_references_valid.
  - by apply stop_video_references_valid.
  - unfold play_random_video. destruct (_ =? 0); [done|].
    by apply play_video_references_valid.
  - unfold pause_video. destruct (_currently_playing_video self); [|done].
    by case_bool_decide.
  - unfold continue_video. destruct (_currently_playing_video self); [|done].
    by case_bool_decide.
  - unfold show_playing. by destruct (_currently_playing_video self).
  - unfold create_playlist. destruct (mem _ _); [done|]. simpl.
    apply references_valid_set_playlists; [|done].
    intros name playlist video_id video [[= -> ->] | Hold]%elem_of_set _.
    + by left.
    + right. left. by exists name.
  - unfold add_to_playlist.
    destruct (get _ _) as [playlist|] eqn:Hget; [|done].
    destruct (get_video _ _) as [video|] eqn:Hvideo; [|done].
    destruct (is_flagged _); [done|]. destruct (mem _ _); [done|]. simpl.
    apply references_valid_set_playlists; [|done].
    intros name playlist' video_id' video' [[= -> ->] | Hold]%elem_of_set.
    + simpl. intros [[= -> ->] | Hm]%elem_of_set; right; right.
      * destruct (get_video_Some _ _ _ Hvideo) as (v & -> & -> & _). done.
      * eapply Hmembers; [|exact Hm]. by apply get_elem_of in Hget.
    + intros _. right. left. by exists name.
  - unfold show_all_playlists. by destruct (_all_playlists self).
  - unfold show_playlist. destruct (get _ _) as [playlist|]; [|done].
    by destruct (Playlist.videos playlist).
  - unfold remove_from_playlist.
    destruct (get _ _) as [playlist|] eqn:Hget; [|done].
    destruct (get_video _ _) as [video|] eqn:Hvideo; [|done].
    destruct (negb _); [done|]. simpl.
    apply references_valid_set_playlists; [|done].
    intros name playlist' video_id' video' [[= -> ->] | Hold]%elem_of_set.
    + simpl. intros Hm%elem_of_pop. right; right.
      eapply Hmembers; [|exact Hm]. by apply get_elem_of in Hget.
    + intros _. right. left. by exists name.
  - unfold clear_playlist. destruct (get _ _) as [playlist|]; [|done]. simpl.
    apply references_valid_set_playlists; [|done].
    intros name playlist' video_id' video' [[= -> ->] | Hold]%elem_of_set _.
    + by left.
    + right. left. by exists name.
  - unfold delete_playlist. destruct (negb _); [done|]. simpl.
    apply references_valid_set_playlists; [|done].
    intros name playlist video_id video Hold%elem_of_pop _.
    right. left. by exists name.
  - unfold flag_video. destruct (get_video _ _) as [video|]; [|done].
    destruct (is_flagged _); [done|].
    pose proof (stop_video_references_valid self Hvalid) as Hstop.
    destruct (_currently_playing_video self) as [current|];
      [destruct (String.eqb _ _)|]; [destruct (stop_video self)|..];
      by apply references_valid_set_flag_reason.
  - unfold allow_video. destruct (get_video _ _) as [video|]; [|done].
    destruct (negb _); [done|].
    by apply references_valid_set_flag_reason.
Qed.

Lemma reachable_references_valid (library : VideoLibrary)
    (cs : list command) :
  references_valid (run cs (__init__ library)).2.
Proof.
  assert (references_valid (__init__ library)) as Hinit.
  { split; simpl; [done|]. by intros ???? ?%elem_of_nil. }
  revert Hinit. generalize (__init__ library).
  induction cs as [|c cs IH]; intros self Hvalid; simpl; [done|].
  pose proof (execute_references_valid c self Hvalid) as Hc.
  destruct (execute c self) as [out self1]. simpl in Hc.
  specialize (IH self1 Hc). by destruct (run cs self1).
Qed.

(** * Further properties of the commands *)

(** ** Stopping, continuing and showing what plays *)

(** X1: Stopping leaves no video playing, whatever was playing before, and a
    second stop in a row finds nothing to stop and changes nothing; a stop
    of a playing video names it and clears the status as well. *)
Theorem stop_video_clears (self : VideoPlayer) :
  _currently_playing_video (stop_video self).2 = None ∧
  _video_library (stop_video self).2 = _video_library self ∧
  _all_playlists (stop_video self).2 = _all_playlists self ∧
  stop_video (stop_video self).2 =
    (["Cannot stop video: No video is currently playing"],
     (stop_video self).2) ∧
  (∀ current,
     _currently_playing_video self = Some current →
     stop_video self =
       (["Stopping video: " +:+ Video.title (video_of self current)],
        set_playback None None self)).
Proof.
  unfold stop_video.
  destruct (_currently_playing_video self) as [current|] eqn:Hplaying; simpl.
  - split_and!; try done. by intros ? [= ->].
  - rewrite Hplaying. split_and!; done.
Qed.

Lemma stop_video_clears_witness :
  let self := (play_video "funny_dogs_video_id" (__init__ example_library)).2 in
  _currently_playing_video self = Some 0 ∧
  stop_video self =
    (["Stopping video: Funny Dogs"], __init__ example_library).
Proof.
  split; [reflexivity|].
  exact (proj2 (proj2 (proj2 (proj2 (stop_video_clears
    (play_video "funny_dogs_video_id" (__init__ example_library)).2))))
    0 eq_refl).
Defined.

(** X2: Pausing a video that plays and continuing it gives back the player as
    it was, with one notice for each step. *)
Theorem pause_then_continue (self : VideoPlayer) (current : vref) :
  _currently_playing_video self = Some current →
  _current_video_status self = Some PLAYING →
  (continue_video (pause_video self).2).2 = self ∧
  (pause_video self).1 =
    ["Pausing video: " +:+ Video.title (video_of self current)] ∧
  (continue_video (pause_video self).2).1 =
    ["Continuing video: " +:+ Video.title (video_of self current)].
Proof.
  intros Hplaying Hstatus. unfold pause_video. rewrite Hplaying, Hstatus.
  simpl. unfold continue_video. simpl. rewrite Hplaying. simpl.
  split_and!; try done.
  destruct self. simpl in *. by subst.
Qed.

Lemma pause_then_continue_witness :
  let self := (play_video "funny_dogs_video_id" (__init__ example_library)).2 in
  _currently_playing_video self = Some 0 ∧
  _current_video_status self = Some PLAYING ∧
  (continue_video (pause_video self).2).2 = self.
Proof.
  split; [reflexivity|]. split; [reflexivity|].
  exact (proj1 (pause_then_continue
    (play_video "funny_dogs_video_id" (__init__ example_library)).2 0
    eq_refl eq_refl)).
Defined.

(** X3: While a video is playing, a first [continue_video] leaves it with status
    PLAYING; every further one is refused with the "not paused" message and
    changes nothing, and none of them changes the video that plays. *)
Theorem continue_video_idempotent (self : VideoPlayer) (current : vref) :
  _currently_playing_video self = Some current →
  PlaybackState (continue_video self).2 = (Some current, Some PLAYING) ∧
  continue_video (continue_video self).2 =
    (["Cannot continue video: Video is not paused"], (continue_video self).2).
Proof.
  intros Hplaying. unfold continue_video at 1 3 4. rewrite Hplaying.
  case_bool_decide as Hstatus; unfold continue_video, PlaybackState; simpl;
    rewrite Hplaying.
  - rewrite Hstatus. by rewrite bool_decide_eq_true_2.
  - done.
Qed.

Lemma continue_video_idempotent_witness :
  let self :=
    (run [Play "funny_dogs_video_id"; Pause] (__init__ example_library)).2 in
  _currently_playing_video self = Some 0 ∧
  continue_video (continue_video self).2 =
    (["Cannot continue video: Video is not paused"], (continue_video self).2).
Proof.
  split; [reflexivity|].
  exact (proj2 (continue_video_idempotent
    (run [Play "funny_dogs_video_id"; Pause] (__init__ example_library)).2 0
    eq_refl)).
Defined.

(** X4: [show_playing] marks the video as paused exactly after a pause: the
    line ends in " - PAUSED" once the video is paused and carries no mark
    once it is continued. *)
Theorem show_playing_paused_mark (self : VideoPlayer) (current : vref) :
  _currently_playing_video self = Some current →
  (show_playing (pause_video self).2).1 =
    ["Currently playing: " +:+
     (formatted_video_info (video_of self current) +:+ " - PAUSED")] ∧
  (show_playing (continue_video self).2).1 =
    ["Currently playing: " +:+ formatted_video_info (video_of self current)].
Proof.
  intros Hplaying. split.
  - unfold pause_video. rewrite Hplaying.
    case_bool_decide as Hstatus; unfold show_playing; simpl;
      rewrite Hplaying; [by rewrite Hstatus|done].
  - unfold continue_video. rewrite Hplaying.
    case_bool_decide as Hstatus; unfold show_playing; simpl;
      rewrite Hplaying; [by rewrite Hstatus|done].
Qed.

Lemma show_playing_paused_mark_witness :
  let self := (play_video "funny_dogs_video_id" (__init__ example_library)).2 in
  _currently_playing_video self = Some 0 ∧
  (show_playing (pause_video self).2).1 =
    ["Currently playing: Funny Dogs (funny_dogs_video_id) [#dog #animal] - PAUSED"].
Proof.
  split; [reflexivity|].
  exact (proj1 (show_playing_paused_mark
    (play_video "funny_dogs_video_id" (__init__ example_library)).2 0
    eq_refl)).
Defined.

(** ** The library as a dictionary *)

Lemma get_video_of_ref (lib : VideoLibrary) (video : vref) (v : Video.t) :
  distinct_ids lib →
  lib !! video = Some v →
  get_video lib (Video.video_id v) = Some video.
Proof.
  intros Hdistinct Hv. unfold get_video.
  assert (list_find (λ v', Video.video_id v' = Video.video_id v) lib =
          Some (video, v)) as ->; [|done].
  apply list_find_Some. split_and!; [done..|].
  intros j y Hy Hlt Hid.
  assert (j = video); [|lia].
  eapply (NoDup_lookup _ _ _ _ Hdistinct); rewrite list_lookup_fmap.
  - rewrite Hy. simpl. by rewrite Hid.
  - by rewrite Hv.
Qed.

Lemma video_of_get_all_videos (self : VideoPlayer) :
  video_of self <$> get_all_videos (_video_library self) =
  _video_library self.
Proof.
  unfold get_all_videos, video_of.
  apply list_eq. intros i. rewrite list_lookup_fmap.
  destruct (decide (i < length (_video_library self))) as [Hlt|Hge].
  - rewrite lookup_seq_lt by done. simpl.
    destruct (lookup_lt_is_Some_2 _ _ Hlt) as [v Hv].
    by rewrite (list_lookup_total_correct _ _ _ Hv), Hv.
  - rewrite lookup_seq_ge by lia. simpl. symmetry.
    apply lookup_ge_None. lia.
Qed.

Lemma filter_nil_all {A} (f : A → bool) (l : list A) :
  (∀ x, x ∈ l → f x = false) → List.filter f l = [].
Proof.
  induction l as [|x l IH]; intros Hall; simpl; [done|].
  rewrite (Hall x) by (apply elem_of_cons; by left).
  apply IH. intros y Hy. apply Hall, elem_of_cons. by right.
Qed.

Lemma elem_of_get_all_videos (lib : VideoLibrary) (video : vref) :
  video ∈ get_all_videos lib ↔ video < length lib.
Proof. unfold get_all_videos. rewrite elem_of_seq. lia. Qed.

(** ** Playing a random video *)

(** X5: When every video of the library is flagged, and so too when the library
    is empty, [play_random_video] reports that no video is available and
    changes nothing, whatever the draw. *)
Theorem play_random_video_none_available (choice : nat) (self : VideoPlayer) :
  (∀ v, v ∈ _video_library self → Video.flag_reason v ≠ "") →
  play_random_video choice self = (["No videos available"], self).
Proof.
  intros Hall. unfold play_random_video.
  rewrite filter_nil_all; [done|].
  intros video Hin%elem_of_get_all_videos.
  destruct (lookup_lt_is_Some_2 _ _ Hin) as [v Hv].
  unfold video_of. rewrite (list_lookup_total_correct _ _ _ Hv).
  apply negb_false_iff, is_flagged_true, Hall.
  by eapply list_elem_of_lookup_2.
Qed.

Lemma play_random_video_none_available_witness :
  let self :=
    (run [FlagVideo "funny_dogs_video_id" None;
          FlagVideo "amazing_cats_video_id" (Some "dull");
          FlagVideo "another_cat_video_id" None]
       (__init__ example_library)).2 in
  (∀ v, v ∈ _video_library self → Video.flag_reason v ≠ "") ∧
  play_random_video 7 self = (["No videos available"], self).
Proof.
  assert (∀ v,
    v ∈ _video_library
      (run [FlagVideo "funny_dogs_video_id" None;
            FlagVideo "amazing_cats_video_id" (Some "dull");
            FlagVideo "another_cat_video_id" None]
         (__init__ example_library)).2 →
    Video.flag_reason v ≠ "") as Hall.
  { intros v Hin. vm_compute in Hin.
    repeat (apply elem_of_cons in Hin as [-> | Hin]; [discriminate|]).
    by apply elem_of_nil in Hin. }
  split; [exact Hall|].
  exact (play_random_video_none_available 7 _ Hall).
Defined.

(** X6: In a library with one video per id and some video that is not flagged,
    [play_random_video] starts a video for every draw: afterwards a video
    of the library that is not flagged is playing, with status PLAYING, and
    the last line printed announces it. *)
Theorem play_random_video_plays_unflagged (choice : nat)
    (self : VideoPlayer) :
  distinct_ids (_video_library self) →
  (∃ v, v ∈ _video_library self ∧ Video.flag_reason v = "") →
  ∃ video,
    PlaybackState (play_random_video choice self).2 =
      (Some video, Some PLAYING) ∧
    video < length (_video_library self) ∧
    Video.flag_reason (video_of self video) = "" ∧
    last (play_random_video choice self).1 =
      Some ("Playing video: " +:+ Video.title (video_of self video)).
Proof.
  intros Hdistinct (v & Hv & Hunflagged).
  unfold play_random_video.
  set (non_flagged :=
         List.filter (λ video, negb (is_flagged (video_of self video)))
           (get_all_videos (_video_library self))).
  assert (∀ video, video ∈ non_flagged →
            video < length (_video_library self) ∧
            is_flagged (video_of self video) = false) as Hmembers.
  { intros video Hin. apply list_elem_of_In, filter_In in Hin as [Hin Hf].
    apply list_elem_of_In, elem_of_get_all_videos in Hin.
    by apply negb_true_iff in Hf. }
  assert (length non_flagged ≠ 0) as Hlen.
  { apply list_elem_of_lookup_1 in Hv as [i Hi].
    assert (i ∈ non_flagged) as Hin.
    { apply list_elem_of_In, filter_In. split.
      - apply list_elem_of_In, elem_of_get_all_videos.
        by eapply lookup_lt_Some.
      - apply negb_true_iff, is_flagged_false. unfold video_of.
        by rewrite (list_lookup_total_correct _ _ _ Hi). }
    destruct non_flagged; [by apply elem_of_nil in Hin|done]. }
  apply Nat.eqb_neq in Hlen as Hlen'. rewrite Hlen'.
  set (video := non_flagged !!! (choice mod length non_flagged)).
  assert (video ∈ non_flagged) as Hin.
  { apply list_elem_of_lookup_total_2. by apply Nat.mod_upper_bound. }
  destruct (Hmembers video Hin) as [Hlt Hf].
  destruct (lookup_lt_is_Some_2 _ _ Hlt) as [v' Hv'].
  assert (video_of self video = v') as Hof.
  { unfold video_of. by apply list_lookup_total_correct. }
  exists video. unfold play_video.
  rewrite Hof, (get_video_of_ref _ _ _ Hdistinct Hv'), Hof.
  rewrite <- Hof, Hf. simpl.
  split_and!; [done|done|by apply is_flagged_false|].
  by rewrite last_snoc.
Qed.

Lemma play_random_video_plays_unflagged_witness :
  let self := (flag_video "funny_dogs_video_id" None
                 (__init__ example_library)).2 in
  distinct_ids (_video_library self) ∧
  (∃ v, v ∈ _video_library self ∧ Video.flag_reason v = "") ∧
  ∃ video,
    PlaybackState (play_random_video 4 self).2 = (Some video, Some PLAYING) ∧
    video < length (_video_library self) ∧
    Video.flag_reason (video_of self video) = "" ∧
    last (play_random_video 4 self).1 =
      Some ("Playing video: " +:+ Video.title (video_of self video)).
Proof.
  assert (distinct_ids
            (_video_library
               (flag_video "funny_dogs_video_id" None
                  (__init__ example_library)).2)) as Hdistinct.
  { unfold distinct_ids. apply (bool_decide_unpack _). vm_compute. exact I. }
  assert (∃ v,
    v ∈ _video_library
          (flag_video "funny_dogs_video_id" None
             (__init__ example_library)).2 ∧
    Video.flag_reason v = "") as Hsome.
  { exists amazing_cats. split; [|reflexivity].
    vm_compute. apply elem_of_cons. right. apply elem_of_cons. by left. }
  split; [exact Hdistinct|]. split; [exact Hsome|].
  exact (play_random_video_plays_unflagged 4 _ Hdistinct Hsome).
Defined.

(** ** Sorted displays *)

Section sorted_facts.
Context {A : Type} (key : A → string).

Lemma sorted_insert_perm (x : A) (l : list A) :
  sorted_insert key x l ≡ₚ x :: l.
Proof.
  induction l as [|y l IH]; simpl; [done|].
  destruct (String.leb (key x) (key y)); [done|].
  rewrite IH. apply Permutation_swap.
Qed.

Lemma sorted_perm (l : list A) : sorted key l ≡ₚ l.
Proof.
  induction l as [|x l IH]; simpl; [done|].
  by rewrite sorted_insert_perm, IH.
Qed.

Lemma is_sorted_cons (x y : A) (l : list A) :
  is_sorted key (x :: y :: l) =
  String.leb (key x) (key y) && is_sorted key (y :: l).
Proof. done. Qed.

Lemma sorted_insert_is_sorted (x : A) (l : list A) :
  is_sorted key l = true → is_sorted key (sorted_insert key x l) = true.
Proof.
  induction l as [|y l IH]; [done|].
  intros Hsorted. cbn [sorted_insert].
  destruct (String.leb (key x) (key y)) eqn:Hxy.
  - rewrite is_sorted_cons, Hxy. done.
  - assert (String.leb (key y) (key x) = true) as Hyx.
    { destruct (String.leb_total (key x) (key y)); congruence. }
    destruct l as [|z l].
    + cbn [sorted_insert]. by rewrite is_sorted_cons, Hyx.
    + rewrite is_sorted_cons in Hsorted.
      apply andb_true_iff in Hsorted as [Hyz Hrest].
      specialize (IH Hrest). cbn [sorted_insert] in *.
      destruct (String.leb (key x) (key z)).
      * by rewrite is_sorted_cons, Hyx.
      * by rewrite is_sorted_cons, Hyz.
Qed.

Lemma sorted_is_sorted (l : list A) : is_sorted key (sorted key l) = true.
Proof.
  induction l as [|x l IH]; [done|].
  by apply sorted_insert_is_sorted.
Qed.

End sorted_facts.

(** X7: [show_all_videos] lists every video of the library once, flagged ones
    included, in the order of their titles; each line gives the video and,
    for a flagged one, its flag.  The player is left as it was. *)
Theorem show_all_videos_sorted (self : VideoPlayer) :
  ∃ videos,
    videos ≡ₚ _video_library self ∧
    is_sorted Video.title videos = true ∧
    show_all_videos self =
      ("Here's a list of all available videos:" ::
       ((λ video, formatted_video_info video +:+ video_flag_status video)
          <$> videos),
       self).
Proof.
  exists (sorted Video.title (_video_library self)). split_and!.
  - apply sorted_perm.
  - apply sorted_is_sorted.
  - unfold show_all_videos. by rewrite video_of_get_all_videos.
Qed.

(** X8: [show_all_playlists] reports that there is none when the store is
    empty; otherwise it lists the stored title of every playlist once, in
    the order of these titles as strings (capitals before small letters). *)
Theorem show_all_playlists_sorted (self : VideoPlayer) :
  (_all_playlists self = [] →
   show_all_playlists self = (["No playlists exist yet"], self)) ∧
  (_all_playlists self ≠ [] →
   ∃ playlists,
     playlists ≡ₚ values (_all_playlists self) ∧
     is_sorted Playlist.title playlists = true ∧
     show_all_playlists self =
       ("Showing all playlists:" ::
        ((λ playlist, "  " +:+ Playlist.title playlist) <$> playlists),
        self)).
Proof.
  unfold show_all_playlists. split.
  - by intros ->.
  - intros Hne.
    exists (sorted Playlist.title (values (_all_playlists self))).
    split_and!; [apply sorted_perm | apply sorted_is_sorted |].
    by destruct (_all_playlists self).
Qed.

Lemma show_all_playlists_sorted_witness :
  let self :=
    (run [CreatePlaylist "zebra"; CreatePlaylist "Apes"; CreatePlaylist "Yak"]
       (__init__ example_library)).2 in
  _all_playlists self ≠ [] ∧
  (show_all_playlists self).1 =
    ["Showing all playlists:"; "  Apes"; "  Yak"; "  zebra"] ∧
  ∃ playlists,
    playlists ≡ₚ values (_all_playlists self) ∧
    is_sorted Playlist.title playlists = true ∧
    show_all_playlists self =
      ("Showing all playlists:" ::
       ((λ playlist, "  " +:+ Playlist.title playlist) <$> playlists),
       self).
Proof.
  assert (_all_playlists
    (run [CreatePlaylist "zebra"; CreatePlaylist "Apes"; CreatePlaylist "Yak"]
       (__init__ example_library)).2 ≠ []) as Hne by discriminate.
  split; [exact Hne|]. split; [reflexivity|].
  exact (proj2 (show_all_playlists_sorted _) Hne).
Defined.

(** ** More on dictionaries *)

Section more_dict_facts.
Context {V : Type}.
Implicit Types (k : string) (v : V) (d : dict V).

Lemma get_None_keys k d : get k d = None ↔ k ∉ d.*1.
Proof.
  induction d as [|[k' v'] d IH]; simpl.
  - split; [intros _; apply not_elem_of_nil | done].
  - rewrite not_elem_of_cons. destruct (String.eqb k k') eqn:E.
    + apply String.eqb_eq in E. split; [done | by intros [? _]].
    + apply String.eqb_neq in E. rewrite IH. tauto.
Qed.

Lemma set_fresh k v d : get k d = None → set k v d = d ++ [(k, v)].
Proof.
  induction d as [|[k' v'] d IH]; simpl; [done|].
  destruct (String.eqb k k'); [done|]. intros Hg. by rewrite IH.
Qed.

Lemma keys_set_present k v v0 d : get k d = Some v0 → (set k v d).*1 = d.*1.
Proof.
  induction d as [|[k' v'] d IH]; simpl; [done|].
  destruct (String.eqb k k'); [done|]. intros Hg. simpl. f_equal.
  by apply IH.
Qed.


Lemma pop_sublist k d : pop k d `sublist_of` d.
Proof.
  induction d as [|[k' v'] d IH]; simpl; [done|].
  destruct (String.eqb k k'); [by apply sublist_cons | by apply sublist_skip].
Qed.


Lemma get_pop_eq k d : NoDup d.*1 → get k (pop k d) = None.
Proof.
  induction d as [|[k' v'] d IH]; simpl; [done|].
  intros [Hnotin Hnodup]%NoDup_cons.
  destruct (String.eqb k k') eqn:E.
  - apply String.eqb_eq in E as ->. by apply get_None_keys.
  - simpl. rewrite E. by apply IH.
Qed.

Lemma get_pop_ne k k' d : k ≠ k' → get k' (pop k d) = get k' d.
Proof.
  intros Hne. induction d as [|[k1 v1] d IH]; simpl; [done|].
  destruct (String.eqb k k1) eqn:E.
  - apply String.eqb_eq in E as <-.
    destruct (String.eqb k' k) eqn:E'; [|done].
    apply String.eqb_eq in E'. congruence.
  - simpl. by rewrite IH.
Qed.

Lemma length_pop k d : mem k d = true → length d = S (length (pop k d)).
Proof.
  unfold mem. induction d as [|[k' v'] d IH]; simpl; [done|].
  destruct (String.eqb k k'); [done|]. intros Hm. simpl. by rewrite <- IH.
Qed.

End more_dict_facts.

(** ** Creating playlists *)

(** X9: Creating a playlist under a name that is free, whatever its case, puts
    an empty playlist with the given title last in the store, filed under
    the lower-cased name, and changes nothing else: the playlists there
    before keep their place and members. *)
Theorem create_playlist_appends (playlist_name : string)
    (self : VideoPlayer) :
  mem (PyStr.lower playlist_name) (_all_playlists self) = false →
  let self' := (create_playlist playlist_name self).2 in
  _all_playlists self' =
    _all_playlists self ++
    [(PyStr.lower playlist_name, Playlist.mk playlist_name [])] ∧
  (∀ name, name ≠ PyStr.lower playlist_name →
           get name (_all_playlists self') = get name (_all_playlists self)) ∧
  _video_library self' = _video_library self ∧
  PlaybackState self' = PlaybackState self.
Proof.
  intros Hfresh. unfold create_playlist. rewrite Hfresh. simpl.
  apply mem_get in Hfresh. split_and!; try done.
  - by apply set_fresh.
  - intros name Hne. by apply get_set_ne.
Qed.

Lemma create_playlist_appends_witness :
  let self := (create_playlist "Fun" (__init__ example_library)).2 in
  mem (PyStr.lower "Work") (_all_playlists self) = false ∧
  _all_playlists (create_playlist "Work" self).2 =
    [("fun", Playlist.mk "Fun" []); ("work", Playlist.mk "Work" [])].
Proof.
  split; [reflexivity|].
  exact (proj1 (create_playlist_appends "Work"
    (create_playlist "Fun" (__init__ example_library)).2 eq_refl)).
Defined.

(** ** Adding to playlists *)

(** X10: Adding the same video to the same playlist twice in a row leaves the
    player as the first call left it, whatever the first call did: refused
    for a missing playlist, a missing or flagged video, or a video that is
    a member already, it is refused again; and a video just added is then
    a member. *)
Theorem add_to_playlist_twice (playlist_name video_id : string)
    (self : VideoPlayer) :
  (add_to_playlist playlist_name video_id
     (add_to_playlist playlist_name video_id self).2).2 =
  (add_to_playlist playlist_name video_id self).2.
Proof.
  remember (add_to_playlist playlist_name video_id self) as first eqn:Hfirst.
  unfold add_to_playlist in Hfirst.
  destruct (get _ (_all_playlists self)) as [playlist|] eqn:Hplaylist;
    [|subst first; simpl; unfold add_to_playlist; by rewrite Hplaylist].
  destruct (get_video _ video_id) as [video|] eqn:Hget;
    [|subst first; simpl; unfold add_to_playlist;
      by rewrite Hplaylist, Hget].
  destruct (is_flagged _) eqn:Hflag;
    [subst first; simpl; unfold add_to_playlist;
     by rewrite Hplaylist, Hget, Hflag|].
  destruct (mem _ _) eqn:Hmem;
    [subst first; simpl; unfold add_to_playlist;
     by rewrite Hplaylist, Hget, Hflag, Hmem|].
  destruct (get_video_Some _ _ _ Hget) as (v & _ & Hv & Hid).
  subst first. simpl. unfold add_to_playlist. simpl.
  rewrite get_set_eq, Hget.
  unfold video_of in *. simpl. rewrite Hflag.
  unfold Playlist.add_video, Playlist.videos. simpl.
  rewrite Hv, Hid. unfold mem. by rewrite get_set_eq.
Qed.

(** X11: A video that exists, is not flagged and is not yet a member is added
    at the end of the playlist: [show_playlist], under any spelling of the
    name, then lists the earlier members in their order followed by the new
    one.  Library and playback are untouched. *)
Theorem add_to_playlist_appends (playlist_name shown_name video_id : string)
    (self : VideoPlayer) (playlist : Playlist.t) (video : vref) :
  get (PyStr.lower playlist_name) (_all_playlists self) = Some playlist →
  get_video (_video_library self) video_id = Some video →
  Video.flag_reason (video_of self video) = "" →
  mem video_id (Playlist.videos playlist) = false →
  PyStr.lower shown_name = PyStr.lower playlist_name →
  let self' := (add_to_playlist playlist_name video_id self).2 in
  (add_to_playlist playlist_name video_id self).1 =
    ["Added video to " +:+ playlist_name +:+ ": " +:+
     Video.title (video_of self video)] ∧
  get (PyStr.lower playlist_name) (_all_playlists self') =
    Some (Playlist.mk (Playlist.title playlist)
            (Playlist.videos playlist ++ [(video_id, video)])) ∧
  (show_playlist shown_name self').1 =
    ("Showing playlist: " +:+ shown_name) ::
    (member_line self <$> Playlist.videos playlist) ++
    [member_line self (video_id, video)] ∧
  _video_library self' = _video_library self ∧
  PlaybackState self' = PlaybackState self.
Proof.
  intros Hplaylist Hget Hflag Hfresh Hshown.
  apply is_flagged_false in Hflag.
  destruct (get_video_Some _ _ _ Hget) as (v & _ & Hv & Hid).
  unfold add_to_playlist. rewrite Hplaylist, Hget, Hflag, Hfresh. simpl.
  unfold Playlist.add_video. rewrite Hv, Hid.
  apply mem_get in Hfresh as Hnone.
  unfold Playlist.videos in *. rewrite (set_fresh _ _ _ Hnone).
  split_and!; try done.
  - by rewrite get_set_eq.
  - unfold show_playlist. simpl. rewrite Hshown, get_set_eq. simpl.
    destruct (Playlist._videos playlist) as [|entry entries]; simpl;
      [done|]. by rewrite fmap_app.
Qed.

Lemma add_to_playlist_appends_witness :
  let self :=
    (run [CreatePlaylist "Fun"; AddToPlaylist "fun" "another_cat_video_id"]
       (__init__ example_library)).2 in
  get (PyStr.lower "FUN") (_all_playlists self) =
    Some (Playlist.mk "Fun" [("another_cat_video_id", 2)]) ∧
  get_video (_video_library self) "funny_dogs_video_id" = Some 0 ∧
  Video.flag_reason (video_of self 0) = "" ∧
  (show_playlist "fUn" (add_to_playlist "FUN" "funny_dogs_video_id" self).2).1 =
    ["Showing playlist: fUn";
     "Another Cat Video (another_cat_video_id) [#cat #animal]";
     "Funny Dogs (funny_dogs_video_id) [#dog #animal]"].
Proof.
  split; [reflexivity|]. split; [reflexivity|]. split; [reflexivity|].
  exact (proj1 (proj2 (proj2 (add_to_playlist_appends "FUN" "fUn"
    "funny_dogs_video_id"
    (run [CreatePlaylist "Fun"; AddToPlaylist "fun" "another_cat_video_id"]
       (__init__ example_library)).2
    (Playlist.mk "Fun" [("another_cat_video_id", 2)]) 0
    eq_refl eq_refl eq_refl eq_refl eq_refl)))).
Defined.

(** ** Removing from, clearing and deleting playlists *)

(** X12: Removing a member of a playlist that has one entry per id takes out
    exactly that video: it is no member afterwards, every other id keeps
    its entry, and the members left keep their order.  The playlist keeps
    its title and its place in the store. *)
Theorem remove_from_playlist_removes (playlist_name video_id : string)
    (self : VideoPlayer) (playlist : Playlist.t) (video : vref) :
  get (PyStr.lower playlist_name) (_all_playlists self) = Some playlist →
  get_video (_video_library self) video_id = Some video →
  mem video_id (Playlist.videos playlist) = true →
  NoDup (Playlist.videos playlist).*1 →
  let self' := (remove_from_playlist playlist_name video_id self).2 in
  (remove_from_playlist playlist_name video_id self).1 =
    ["Removed video from " +:+ playlist_name +:+ ": " +:+
     Video.title (video_of self video)] ∧
  ∃ playlist',
    get (PyStr.lower playlist_name) (_all_playlists self') = Some playlist' ∧
    Playlist.title playlist' = Playlist.title playlist ∧
    mem video_id (Playlist.videos playlist') = false ∧
    (∀ other, other ≠ video_id →
       get other (Playlist.videos playlist') =
       get other (Playlist.videos playlist)) ∧
    Playlist.videos playlist' `sublist_of` Playlist.videos playlist ∧
    length (Playlist.videos playlist) =
      S (length (Playlist.videos playlist')) ∧
    (_all_playlists self').*1 = (_all_playlists self).*1.
Proof.
  intros Hplaylist Hget Hmem Hnodup.
  destruct (get_video_Some _ _ _ Hget) as (v & _ & Hv & Hid).
  unfold remove_from_playlist. rewrite Hplaylist, Hget, Hmem. simpl.
  split; [done|].
  eexists. split; [apply get_set_eq|].
  unfold Playlist.remove_video, Playlist.videos, Playlist.title in *.
  simpl. rewrite Hv, Hid. split_and!.
  - done.
  - apply mem_get. by apply get_pop_eq.
  - intros other Hne. by apply get_pop_ne.
  - apply pop_sublist.
  - by apply length_pop.
  - by eapply keys_set_present.
Qed.

Lemma remove_from_playlist_removes_witness :
  let self :=
    (run [CreatePlaylist "Fun"; AddToPlaylist "fun" "another_cat_video_id";
          AddToPlaylist "fun" "funny_dogs_video_id"]
       (__init__ example_library)).2 in
  get (PyStr.lower "Fun") (_all_playlists self) =
    Some (Playlist.mk "Fun"
            [("another_cat_video_id", 2); ("funny_dogs_video_id", 0)]) ∧
  get_video (_video_library self) "another_cat_video_id" = Some 2 ∧
  (remove_from_playlist "Fun" "another_cat_video_id" self).1 =
    ["Removed video from Fun: Another Cat Video"].
Proof.
  split; [reflexivity|]. split; [reflexivity|].
  refine (proj1 (remove_from_playlist_removes "Fun" "another_cat_video_id"
    (run [CreatePlaylist "Fun"; AddToPlaylist "fun" "another_cat_video_id";
          AddToPlaylist "fun" "funny_dogs_video_id"]
       (__init__ example_library)).2
    (Playlist.mk "Fun"
       [("another_cat_video_id", 2); ("funny_dogs_video_id", 0)]) 2
    eq_refl eq_refl eq_refl _)).
  apply (bool_decide_unpack _). vm_compute. exact I.
Defined.

(** X13: Clearing a playlist empties it and nothing else: it keeps its title and
    its place in the store, the other playlists keep their members, and
    [show_playlist] then reports that it has no videos. *)
Theorem clear_playlist_empties (playlist_name shown_name : string)
    (self : VideoPlayer) (playlist : Playlist.t) :
  get (PyStr.lower playlist_name) (_all_playlists self) = Some playlist →
  PyStr.lower shown_name = PyStr.lower playlist_name →
  let self' := (clear_playlist playlist_name self).2 in
  (clear_playlist playlist_name self).1 =
    ["Successfully removed all videos from " +:+ playlist_name] ∧
  get (PyStr.lower playlist_name) (_all_playlists self') =
    Some (Playlist.mk (Playlist.title playlist) []) ∧
  (∀ name, name ≠ PyStr.lower playlist_name →
           get name (_all_playlists self') = get name (_all_playlists self)) ∧
  (_all_playlists self').*1 = (_all_playlists self).*1 ∧
  (show_playlist shown_name self').1 =
    ["Showing playlist: " +:+ shown_name; "  No videos here yet"] ∧
  _video_library self' = _video_library self ∧
  PlaybackState self' = PlaybackState self.
Proof.
  intros Hplaylist Hshown. unfold clear_playlist. rewrite Hplaylist. simpl.
  split_and!; try done.
  - apply get_set_eq.
  - intros name Hne. by apply get_set_ne.
  - by eapply keys_set_present.
  - unfold show_playlist. simpl. by rewrite Hshown, get_set_eq.
Qed.

Lemma clear_playlist_empties_witness :
  let self :=
    (run [CreatePlaylist "Fun"; AddToPlaylist "fun" "another_cat_video_id"]
       (__init__ example_library)).2 in
  get (PyStr.lower "FUN") (_all_playlists self) =
    Some (Playlist.mk "Fun" [("another_cat_video_id", 2)]) ∧
  PyStr.lower "fun" = PyStr.lower "FUN" ∧
  get (PyStr.lower "FUN") (_all_playlists (clear_playlist "FUN" self).2) =
    Some (Playlist.mk "Fun" []).
Proof.
  split; [reflexivity|]. split; [reflexivity|].
  exact (proj1 (proj2 (clear_playlist_empties "FUN" "fun"
    (run [CreatePlaylist "Fun"; AddToPlaylist "fun" "another_cat_video_id"]
       (__init__ example_library)).2
    (Playlist.mk "Fun" [("another_cat_video_id", 2)]) eq_refl eq_refl))).
Defined.

(** X14: Deleting a playlist from a store with one playlist per key removes it
    and nothing else: under any spelling of its name it can no longer be
    shown or deleted, the other playlists are as before, and the name is
    free again, so that creating it anew succeeds with an empty playlist. *)
Theorem delete_playlist_removes (playlist_name other_name : string)
    (self : VideoPlayer) :
  mem (PyStr.lower playlist_name) (_all_playlists self) = true →
  NoDup (_all_playlists self).*1 →
  PyStr.lower other_name = PyStr.lower playlist_name →
  let self' := (delete_playlist playlist_name self).2 in
  (delete_playlist playlist_name self).1 =
    ["Deleted playlist: " +:+ playlist_name] ∧
  get (PyStr.lower playlist_name) (_all_playlists self') = None ∧
  (∀ name, name ≠ PyStr.lower playlist_name →
           get name (_all_playlists self') = get name (_all_playlists self)) ∧
  show_playlist other_name self' =
    (["Cannot show playlist " +:+ other_name +:+
      ": Playlist does not exist"], self') ∧
  delete_playlist other_name self' =
    (["Cannot delete playlist " +:+ other_name +:+
      ": Playlist does not exist"], self') ∧
  (create_playlist other_name self').1 =
    ["Successfully created new playlist: " +:+ other_name] ∧
  get (PyStr.lower playlist_name)
    (_all_playlists (create_playlist other_name self').2) =
    Some (Playlist.mk other_name []) ∧
  _video_library self' = _video_library self ∧
  PlaybackState self' = PlaybackState self.
Proof.
  intros Hmem Hnodup Hother.
  pose proof (get_pop_eq (PyStr.lower playlist_name) _ Hnodup) as Hgone.
  assert (delete_playlist playlist_name self =
    (["Deleted playlist: " +:+ playlist_name],
     set_playlists (pop (PyStr.lower playlist_name) (_all_playlists self))
       self)) as ->.
  { unfold delete_playlist. by rewrite Hmem. }
  simpl. split_and!; try done.
  - intros name Hne. by apply get_pop_ne.
  - unfold show_playlist. simpl. by rewrite Hother, Hgone.
  - unfold delete_playlist. simpl. unfold mem. by rewrite Hother, Hgone.
  - unfold create_playlist. simpl. unfold mem. by rewrite Hother, Hgone.
  - unfold create_playlist. simpl. unfold mem. rewrite Hother, Hgone. simpl.
    by rewrite get_set_eq.
Qed.

Lemma delete_playlist_removes_witness :
  let self :=
    (run [CreatePlaylist "Fun"; AddToPlaylist "fun" "another_cat_video_id"]
       (__init__ example_library)).2 in
  mem (PyStr.lower "FUN") (_all_playlists self) = true ∧
  NoDup (_all_playlists self).*1 ∧
  PyStr.lower "fun" = PyStr.lower "FUN" ∧
  show_playlist "fun" (delete_playlist "FUN" self).2 =
    (["Cannot show playlist fun: Playlist does not exist"],
     (delete_playlist "FUN" self).2).
Proof.
  assert (NoDup (_all_playlists
    (run [CreatePlaylist "Fun"; AddToPlaylist "fun" "another_cat_video_id"]
       (__init__ example_library)).2).*1) as Hnodup.
  { apply (bool_decide_unpack _). vm_compute. exact I. }
  split; [reflexivity|]. split; [exact Hnodup|]. split; [reflexivity|].
  exact (proj1 (proj2 (proj2 (proj2 (delete_playlist_removes "FUN" "fun"
    (run [CreatePlaylist "Fun"; AddToPlaylist "fun" "another_cat_video_id"]
       (__init__ example_library)).2 eq_refl Hnodup eq_refl))))).
Defined.

(** ** What a flag does *)

Lemma recorded_reason_nonempty (flag_reason : option string) :
  recorded_reason flag_reason ≠ "".
Proof.
  destruct flag_reason as [reason|]; simpl; [|done].
  destruct (String.eqb reason "") eqn:E; [done|].
  by apply String.eqb_neq.
Qed.

(** The player after a flagging that goes through: the flag reason is
    assigned in the library, and playback is stopped if the video played. *)
Lemma flag_video_state (self : VideoPlayer) (video_id : string)
    (flag_reason : option string) (video : vref) :
  get_video (_video_library self) video_id = Some video →
  Video.flag_reason (video_of self video) = "" →
  let self' := (flag_video video_id flag_reason self).2 in
  _video_library self' =
    <[video := Video.set_flag_reason (recorded_reason flag_reason)
                 (video_of self video)]> (_video_library self) ∧
  _all_playlists self' = _all_playlists self ∧
  (PlaybackState self' = PlaybackState self ∨
   PlaybackState self' = (None, None)) ∧
  ((∀ current, _currently_playing_video self = Some current →
               Video.video_id (video_of self current) ≠ video_id) →
   self' = set_library (_video_library self') self).
Proof.
  intros Hget Hflag. apply is_flagged_false in Hflag.
  assert ((if negb (String.eqb (default "" flag_reason) "")
           then default "" flag_reason else "Not supplied")
          = recorded_reason flag_reason) as Hreason.
  { destruct flag_reason as [reason|]; simpl; [|done].
    by destruct (String.eqb reason ""). }
  unfold flag_video. rewrite Hget, Hflag, Hreason.
  destruct (_currently_playing_video self) as [current|] eqn:Hplaying.
  - destruct (String.eqb video_id _) eqn:E.
    + unfold stop_video. rewrite Hplaying. simpl.
      split_and!; [done|done|by right|].
      intros Hother. apply String.eqb_eq in E.
      by destruct (Hother current).
    + simpl. split_and!; [done|done|by left|done].
  - simpl. split_and!; [done|done|by left|done].
Qed.

Lemma video_of_flagged (self self' : VideoPlayer) (video : vref)
    (reason : string) :
  video < length (_video_library self) →
  _video_library self' =
    <[video := Video.set_flag_reason reason (video_of self video)]>
      (_video_library self) →
  video_of self' video = Video.set_flag_reason reason (video_of self video).
Proof.
  intros Hlt Hlib. unfold video_of. rewrite Hlib.
  by rewrite list_lookup_total_insert_eq.
Qed.

(** X15: Once a video is flagged it can be neither played nor added to a
    playlist: both commands are refused with the recorded reason and leave
    the player as the flagging left it. *)
Theorem flagged_video_is_refused (self : VideoPlayer) (video_id : string)
    (flag_reason : option string) (video : vref) :
  get_video (_video_library self) video_id = Some video →
  Video.flag_reason (video_of self video) = "" →
  let self' := (flag_video video_id flag_reason self).2 in
  play_video video_id self' =
    (["Cannot play video: Video is currently flagged (reason: " +:+
      recorded_reason flag_reason +:+ ")"], self') ∧
  (∀ playlist_name,
     mem (PyStr.lower playlist_name) (_all_playlists self) = true →
     add_to_playlist playlist_name video_id self' =
       (["Cannot add video to " +:+ playlist_name +:+
         ": Video is currently flagged (reason: " +:+
         recorded_reason flag_reason +:+ ")"], self')).
Proof.
  intros Hget Hflag. simpl.
  destruct (flag_video_state self video_id flag_reason video Hget Hflag)
    as (Hlib & Hplaylists & _ & _).
  pose proof (video_of_flagged self _ video _ (get_video_lt _ _ _ Hget) Hlib)
    as Hvideo.
  assert (get_video (_video_library (flag_video video_id flag_reason self).2)
            video_id = Some video) as Hget'.
  { rewrite Hlib. unfold video_of. by rewrite get_video_set_flag_reason. }
  assert (is_flagged (video_of (flag_video video_id flag_reason self).2 video)
          = true) as Hflagged.
  { rewrite Hvideo. apply is_flagged_true. simpl.
    apply recorded_reason_nonempty. }
  split.
  - unfold play_video. by rewrite Hget', Hflagged, Hvideo.
  - intros playlist_name Hmem. unfold add_to_playlist.
    rewrite Hplaylists. unfold mem in Hmem.
    destruct (get _ (_all_playlists self)); [|done].
    by rewrite Hget', Hflagged, Hvideo.
Qed.

Lemma flagged_video_is_refused_witness :
  let self := (create_playlist "Fun" (__init__ example_library)).2 in
  get_video (_video_library self) "amazing_cats_video_id" = Some 1 ∧
  Video.flag_reason (video_of self 1) = "" ∧
  play_video "amazing_cats_video_id"
    (flag_video "amazing_cats_video_id" (Some "dull") self).2 =
    (["Cannot play video: Video is currently flagged (reason: dull)"],
     (flag_video "amazing_cats_video_id" (Some "dull") self).2).
Proof.
  split; [reflexivity|]. split; [reflexivity|].
  exact (proj1 (flagged_video_is_refused
    (create_playlist "Fun" (__init__ example_library)).2
    "amazing_cats_video_id" (Some "dull") 1 eq_refl eq_refl)).
Defined.

(** X16: A second flagging of a flagged video is refused and changes nothing:
    the reason recorded first stays. *)
Theorem flag_video_twice (self : VideoPlayer) (video_id : string)
    (first second : option string) (video : vref) :
  get_video (_video_library self) video_id = Some video →
  Video.flag_reason (video_of self video) = "" →
  let self' := (flag_video video_id first self).2 in
  flag_video video_id second self' =
    (["Cannot flag video: Video is already flagged"], self') ∧
  Video.flag_reason (video_of (flag_video video_id second self').2 video) =
    recorded_reason first.
Proof.
  intros Hget Hflag. simpl.
  destruct (flag_video_state self video_id first video Hget Hflag)
    as (Hlib & _ & _ & _).
  pose proof (video_of_flagged self _ video _ (get_video_lt _ _ _ Hget) Hlib)
    as Hvideo.
  assert (flag_video video_id second (flag_video video_id first self).2 =
    (["Cannot flag video: Video is already flagged"],
     (flag_video video_id first self).2)) as ->.
  { unfold flag_video at 1. rewrite Hlib at 1. unfold video_of at 1.
    rewrite get_video_set_flag_reason, Hget.
    assert (is_flagged (video_of (flag_video video_id first self).2 video)
            = true) as ->; [|done].
    rewrite Hvideo. apply is_flagged_true, recorded_reason_nonempty. }
  split; [done|]. simpl. by rewrite Hvideo.
Qed.

Lemma flag_video_twice_witness :
  let self := __init__ example_library in
  get_video (_video_library self) "amazing_cats_video_id" = Some 1 ∧
  Video.flag_reason (video_of self 1) = "" ∧
  Video.flag_reason
    (video_of
       (flag_video "amazing_cats_video_id" (Some "other")
          (flag_video "amazing_cats_video_id" (Some "dull") self).2).2 1) =
    "dull".
Proof.
  split; [reflexivity|]. split; [reflexivity|].
  exact (proj2 (flag_video_twice (__init__ example_library)
    "amazing_cats_video_id" (Some "dull") (Some "other") 1
    eq_refl eq_refl)).
Defined.

(** X17: Flagging a video and allowing it again gives back the library and the
    playlists as they were; unless the video was the one playing, which the
    flagging stops, the whole player is as before.  A further
    [allow_video] is refused, the video not being flagged. *)
Theorem flag_then_allow (self : VideoPlayer) (video_id : string)
    (flag_reason : option string) (video : vref) :
  get_video (_video_library self) video_id = Some video →
  Video.flag_reason (video_of self video) = "" →
  let self1 := (flag_video video_id flag_reason self).2 in
  let self2 := (allow_video video_id self1).2 in
  (allow_video video_id self1).1 =
    ["Successfully removed flag from video: " +:+
     Video.title (video_of self video)] ∧
  _video_library self2 = _video_library self ∧
  _all_playlists self2 = _all_playlists self ∧
  ((∀ current, _currently_playing_video self = Some current →
               Video.video_id (video_of self current) ≠ video_id) →
   self2 = self) ∧
  allow_video video_id self2 =
    (["Cannot remove flag from video: Video is not flagged"], self2).
Proof.
  intros Hget Hflag. simpl.
  pose proof (get_video_lt _ _ _ Hget) as Hlt.
  destruct (flag_video_state self video_id flag_reason video Hget Hflag)
    as (Hlib & Hplaylists & _ & Hother).
  pose proof (video_of_flagged self _ video _ Hlt Hlib) as Hvideo.
  assert (get_video (_video_library (flag_video video_id flag_reason self).2)
            video_id = Some video) as Hget'.
  { rewrite Hlib. unfold video_of. by rewrite get_video_set_flag_reason. }
  assert (is_flagged (video_of (flag_video video_id flag_reason self).2 video)
          = true) as Hflagged.
  { rewrite Hvideo. apply is_flagged_true. simpl.
    apply recorded_reason_nonempty. }
  assert (<[video := Video.set_flag_reason ""
              (video_of (flag_video video_id flag_reason self).2 video)]>
            (_video_library (flag_video video_id flag_reason self).2)
          = _video_library self) as Hback.
  { rewrite Hvideo, Hlib, list_insert_insert_eq.
    apply list_insert_id. unfold video_of in *.
    destruct (lookup_lt_is_Some_2 _ _ Hlt) as [v Hv].
    rewrite (list_lookup_total_correct _ _ _ Hv) in *.
    rewrite Hv. destruct v. simpl in *. by subst. }
  assert (allow_video video_id (flag_video video_id flag_reason self).2 =
    (["Successfully removed flag from video: " +:+
      Video.title (video_of self video)],
     set_library (_video_library self)
       (flag_video video_id flag_reason self).2)) as Hallow.
  { unfold allow_video. rewrite Hget', Hflagged. simpl. rewrite Hback.
    done. }
  rewrite Hallow. simpl. split_and!; try done.
  - intros Hnot. rewrite (Hother Hnot). by destruct self.
  - unfold allow_video. simpl. rewrite Hget.
    apply is_flagged_false in Hflag. unfold video_of in *. simpl.
    by rewrite Hflag.
Qed.

Lemma flag_then_allow_witness :
  let self := (play_video "funny_dogs_video_id" (__init__ example_library)).2 in
  get_video (_video_library self) "amazing_cats_video_id" = Some 1 ∧
  Video.flag_reason (video_of self 1) = "" ∧
  (∀ current, _currently_playing_video self = Some current →
     Video.video_id (video_of self current) ≠ "amazing_cats_video_id") ∧
  (allow_video "amazing_cats_video_id"
     (flag_video "amazing_cats_video_id" None self).2).2 = self.
Proof.
  assert (∀ current,
    _currently_playing_video
      (play_video "funny_dogs_video_id" (__init__ example_library)).2 =
      Some current →
    Video.video_id
      (video_of (play_video "funny_dogs_video_id" (__init__ example_library)).2
         current) ≠ "amazing_cats_video_id") as Hother.
  { intros current [= <-]. discriminate. }
  split; [reflexivity|]. split; [reflexivity|]. split; [exact Hother|].
  exact (proj1 (proj2 (proj2 (proj2 (flag_then_allow
    (play_video "funny_dogs_video_id" (__init__ example_library)).2
    "amazing_cats_video_id" None 1 eq_refl eq_refl)))) Hother).
Defined.

(** X18: Flagging a video takes it out of no playlist: the playlists are as
    before, and [show_playlist] still lists the video, now with its flag
    and the recorded reason after it. *)
Theorem flag_video_keeps_membership (self : VideoPlayer)
    (playlist_name video_id : string) (flag_reason : option string)
    (playlist : Playlist.t) (video : vref) :
  get (PyStr.lower playlist_name) (_all_playlists self) = Some playlist →
  (video_id, video) ∈ Playlist.videos playlist →
  get_video (_video_library self) video_id = Some video →
  Video.flag_reason (video_of self video) = "" →
  let self' := (flag_video video_id flag_reason self).2 in
  _all_playlists self' = _all_playlists self ∧
  formatted_video_info (video_of self video) +:+
    (" - FLAGGED (reason: " +:+ recorded_reason flag_reason +:+ ")")
    ∈ (show_playlist playlist_name self').1.
Proof.
  intros Hplaylist Hmember Hget Hflag. simpl.
  destruct (flag_video_state self video_id flag_reason video Hget Hflag)
    as (Hlib & Hplaylists & _ & _).
  pose proof (video_of_flagged self _ video _ (get_video_lt _ _ _ Hget) Hlib)
    as Hvideo.
  split; [done|].
  unfold show_playlist. rewrite Hplaylists, Hplaylist.
  destruct (Playlist.videos playlist) as [|entry entries] eqn:Hvideos;
    [by apply elem_of_nil in Hmember|].
  rewrite <- Hvideos in *. cbn [fst]. apply elem_of_cons. right.
  apply (list_elem_of_fmap_2' _ _ (video_id, video)); [done|].
  cbv beta iota. rewrite Hvideo. unfold video_flag_status.
  assert (is_flagged
            (Video.set_flag_reason (recorded_reason flag_reason)
               (video_of self video)) = true) as ->; [|done].
  apply is_flagged_true, recorded_reason_nonempty.
Qed.

Lemma flag_video_keeps_membership_witness :
  let self :=
    (run [CreatePlaylist "Fun"; AddToPlaylist "fun" "another_cat_video_id"]
       (__init__ example_library)).2 in
  get (PyStr.lower "Fun") (_all_playlists self) =
    Some (Playlist.mk "Fun" [("another_cat_video_id", 2)]) ∧
  get_video (_video_library self) "another_cat_video_id" = Some 2 ∧
  Video.flag_reason (video_of self 2) = "" ∧
  "Another Cat Video (another_cat_video_id) [#cat #animal] - FLAGGED (reason: Not supplied)"
    ∈ (show_playlist "Fun"
         (flag_video "another_cat_video_id" None self).2).1.
Proof.
  split; [reflexivity|]. split; [reflexivity|]. split; [reflexivity|].
  refine (proj2 (flag_video_keeps_membership
    (run [CreatePlaylist "Fun"; AddToPlaylist "fun" "another_cat_video_id"]
       (__init__ example_library)).2
    "Fun" "another_cat_video_id" None
    (Playlist.mk "Fun" [("another_cat_video_id", 2)]) 2
    eq_refl _ eq_refl eq_refl)).
  apply elem_of_cons. left. reflexivity.
Defined.

(** ** What the searches list *)

Lemma filter_refine {A} (f g h : A → bool) (l : list A) :
  (∀ x, x ∈ l → f x = g x && h x) →
  List.filter f l = List.filter h (List.filter g l).
Proof.
  induction l as [|x l IH]; intros Hf; simpl; [done|].
  rewrite (Hf x) by (apply elem_of_cons; by left).
  rewrite IH by (intros y Hy; apply Hf, elem_of_cons; by right).
  destruct (g x); simpl; [|done]. by destruct (h x).
Qed.

Lemma contains_empty (s : string) : PyStr.contains "" s = true.
Proof. by destruct s. Qed.

(** X19: A flagged video drops out of the search results and nothing else does:
    after a flagging that goes through, each search lists what it listed
    before, in the same order, without the flagged video. *)
Theorem flag_video_hides_from_search (self : VideoPlayer)
    (video_id query : string) (flag_reason : option string) (video : vref) :
  get_video (_video_library self) video_id = Some video →
  Video.flag_reason (video_of self video) = "" →
  let self' := (flag_video video_id flag_reason self).2 in
  matching_title query self' =
    List.filter (λ other, negb (other =? video)) (matching_title query self) ∧
  matching_tag query self' =
    List.filter (λ other, negb (other =? video)) (matching_tag query self) ∧
  (video ∉ matching_title query self') ∧
  (video ∉ matching_tag query self').
Proof.
  intros Hget Hflag. simpl.
  pose proof (get_video_lt _ _ _ Hget) as Hlt.
  destruct (flag_video_state self video_id flag_reason video Hget Hflag)
    as (Hlib & _ & _ & _).
  pose proof (video_of_flagged self _ video _ Hlt Hlib) as Hvideo.
  assert (∀ other, other ≠ video →
            video_of (flag_video video_id flag_reason self).2 other =
            video_of self other) as Hothers.
  { intros other Hne. unfold video_of at 1. rewrite Hlib.
    by rewrite list_lookup_total_insert_ne. }
  assert (is_flagged (video_of (flag_video video_id flag_reason self).2 video)
          = true) as Hflagged.
  { rewrite Hvideo. apply is_flagged_true, recorded_reason_nonempty. }
  assert (get_all_videos (_video_library (flag_video video_id flag_reason
                                            self).2) =
          get_all_videos (_video_library self)) as Hall.
  { unfold get_all_videos. by rewrite Hlib, length_insert. }
  assert (∀ (f : VideoPlayer → vref → bool) l,
    (∀ s other, f s other = true → is_flagged (video_of s other) = false) →
    (∀ other, other ≠ video →
       f (flag_video video_id flag_reason self).2 other = f self other) →
    List.filter (f (flag_video video_id flag_reason self).2) l =
      List.filter (λ other, negb (other =? video)) (List.filter (f self) l) ∧
    video ∉ List.filter (f (flag_video video_id flag_reason self).2) l)
    as Hfilter.
  { intros f l Hunflagged Hsame. split.
    - apply filter_refine. intros other _.
      destruct (decide (other = video)) as [->|Hne].
      + rewrite Nat.eqb_refl, andb_false_r.
        destruct (f _ video) eqn:E; [|done].
        apply Hunflagged in E. congruence.
      + rewrite Hsame by done. apply Nat.eqb_neq in Hne. rewrite Hne.
        by rewrite andb_true_r.
    - intros Hin%list_elem_of_In. apply filter_In in Hin as [_ Hin].
      apply Hunflagged in Hin. congruence. }
  unfold matching_title, matching_tag. rewrite Hall.
  destruct (Hfilter
    (λ s other,
       negb (is_flagged (video_of s other)) &&
       PyStr.contains (PyStr.lower query)
         (PyStr.lower (Video.title (video_of s other))))
    (get_all_videos (_video_library self))) as [Htitle Hnot_title].
  { intros s other [H _]%andb_true_iff. by apply negb_true_iff. }
  { intros other Hne. by rewrite Hothers. }
  destruct (Hfilter
    (λ s other,
       negb (is_flagged (video_of s other)) &&
       existsb (λ tag, String.eqb (PyStr.lower query) (PyStr.lower tag))
         (Video.tags (video_of s other)))
    (get_all_videos (_video_library self))) as [Htag Hnot_tag].
  { intros s other [H _]%andb_true_iff. by apply negb_true_iff. }
  { intros other Hne. by rewrite Hothers. }
  done.
Qed.

Lemma flag_video_hides_from_search_witness :
  let self := __init__ example_library in
  get_video (_video_library self) "amazing_cats_video_id" = Some 1 ∧
  Video.flag_reason (video_of self 1) = "" ∧
  matching_title "cat" self = [1; 2] ∧
  matching_title "cat"
    (flag_video "amazing_cats_video_id" None self).2 =
    List.filter (λ other, negb (other =? 1)) (matching_title "cat" self).
Proof.
  split; [reflexivity|]. split; [reflexivity|]. split; [reflexivity|].
  exact (proj1 (flag_video_hides_from_search (__init__ example_library)
    "amazing_cats_video_id" "cat" None 1 eq_refl eq_refl)).
Defined.

(** X20: The empty search term is in every title: [search_videos] with it finds
    every video that is not flagged, in library order. *)
Theorem search_videos_empty_term (self : VideoPlayer) :
  matching_title "" self =
    List.filter (λ video, negb (is_flagged (video_of self video)))
      (get_all_videos (_video_library self)) ∧
  (∀ video,
     video < length (_video_library self) →
     Video.flag_reason (video_of self video) = "" →
     video ∈ matching_title "" self).
Proof.
  assert (matching_title "" self =
    List.filter (λ video, negb (is_flagged (video_of self video)))
      (get_all_videos (_video_library self))) as Heq.
  { unfold matching_title. apply filter_ext. intros video. simpl.
    by rewrite contains_empty, andb_true_r. }
  split; [done|]. rewrite Heq. intros video Hlt Hflag.
  apply list_elem_of_In, filter_In. split.
  - by apply list_elem_of_In, elem_of_get_all_videos.
  - by apply negb_true_iff, is_flagged_false.
Qed.

Lemma search_videos_empty_term_witness :
  let self := (flag_video "amazing_cats_video_id" None
                 (__init__ example_library)).2 in
  2 < length (_video_library self) ∧
  Video.flag_reason (video_of self 2) = "" ∧
  2 ∈ matching_title "" self.
Proof.
  assert (2 < length (_video_library
    (flag_video "amazing_cats_video_id" None (__init__ example_library)).2))
    as Hlt by (simpl; lia).
  split; [exact Hlt|]. split; [reflexivity|].
  exact (proj2 (search_videos_empty_term _) 2 Hlt eq_refl).
Defined.

(** X21: With every video flagged, and so with an empty library, both searches
    report no results for every query; no selection is made, whatever the
    line typed, and the player is left as it was. *)
Theorem search_all_flagged (query command : string) (self : VideoPlayer) :
  (∀ v, v ∈ _video_library self → Video.flag_reason v ≠ "") →
  search_videos query command self =
    (["No search results for " +:+ query], self) ∧
  search_videos_tag query command self =
    (["No search results for " +:+ query], self).
Proof.
  intros Hall.
  assert (∀ video, video ∈ get_all_videos (_video_library self) →
            negb (is_flagged (video_of self video)) = false) as Hflagged.
  { intros video Hin%elem_of_get_all_videos.
    destruct (lookup_lt_is_Some_2 _ _ Hin) as [v Hv].
    unfold video_of. rewrite (list_lookup_total_correct _ _ _ Hv).
    apply negb_false_iff, is_flagged_true, Hall.
    by eapply list_elem_of_lookup_2. }
  unfold search_videos, search_videos_tag, matching_title, matching_tag.
  rewrite !filter_nil_all; [done|..];
    intros video Hin; by rewrite (Hflagged video Hin).
Qed.

Lemma search_all_flagged_witness :
  (∀ v, v ∈ _video_library (__init__ []) → Video.flag_reason v ≠ "") ∧
  search_videos "cat" "1" (__init__ []) =
    (["No search results for cat"], __init__ []).
Proof.
  assert (∀ v, v ∈ _video_library (__init__ []) → Video.flag_reason v ≠ "")
    as Hall.
  { intros v Hin. simpl in Hin. by apply elem_of_nil in Hin. }
  split; [exact Hall|].
  exact (proj1 (search_all_flagged "cat" "1" (__init__ []) Hall)).
Defined.

(** ** What each command leaves alone *)









(** ** The library never changes its videos *)




(** ** A flagged video never plays *)




(** ** How the playlists are filed *)






(** ** References into the library *)


